(** * go-stations: the TODO REST handler (handler/todo.go, model/todo.go)

    A shallow embedding of the request-handling layer of the service:
    the method dispatcher [ServeHTTP], the two HTTP flows [handleCreate]
    and [handleUpdate], and the four operations [Create], [Read],
    [Update], [Delete] that delegate to the storage-backed service.

    The collaborators that the package only consumes are modelled as
    follows.
    - [service.TODOService] is a record of four state-passing functions
      over an arbitrary store type; every call is also recorded in a
      trace, so that "the service is not invoked" is a statement about
      that trace.
    - [encoding/json] decoding is modelled on parsed JSON values, with
      the struct-decoding rules of [Unmarshal] (case-folded keys, absent
      keys leave zero values, [null] is a no-op, the first type mismatch
      is reported after the whole object was visited).
    - [http.ResponseWriter] keeps the first status code it is given;
      later [WriteHeader] calls are superfluous and change nothing.
    - a Go pointer is an [option]; dereferencing [None] panics. *)

From Stdlib Require Import ZArith Ascii String List Bool.
From stdpp Require Import base strings gmap list pretty.

Local Open Scope Z_scope.

(** ** model/todo.go *)

Module model.

(** [time.Time]; the handler never inspects it. *)
Definition Time := Z.

Record TODO := {
  ID : Z;
  Subject : string;
  Description : string;
  CreatedAt : Time;
  UpdatedAt : Time
}.

Record CreateTODORequest := {
  cr_Subject : string;
  cr_Description : string
}.

Record CreateTODOResponse := { cr_TODO : TODO }.

Record ReadTODORequest := {
  rd_PrevID : Z;
  rd_Size : Z
}.

Record ReadTODOResponse := { rd_TODOs : list TODO }.

Record UpdateTODORequest := {
  up_ID : Z;
  up_Subject : string;
  up_Description : string
}.

Record UpdateTODOResponse := { up_TODO : TODO }.

Record DeleteTODORequest := { del_IDs : list Z }.

Inductive DeleteTODOResponse := mkDeleteTODOResponse.

(** The zero values Go gives to [var req model.XRequest] and to the
    composite literal [&model.ReadTODOResponse{}]. *)
Definition zeroCreateTODORequest : CreateTODORequest :=
  {| cr_Subject := ""; cr_Description := "" |}.
Definition zeroUpdateTODORequest : UpdateTODORequest :=
  {| up_ID := 0; up_Subject := ""; up_Description := "" |}.
Definition zeroReadTODOResponse : ReadTODOResponse :=
  {| rd_TODOs := [] |}.

End model.
Import model.

(** ** Go errors

    An [error] value carries its dynamic type, which is all that the
    type assertion on a pointer to [model.ErrNotFound] looks at, and the
    text that [%v] prints.  The declaration of [model.ErrNotFound] is not
    part of model/todo.go; only its identity as a type matters here. *)

Inductive ErrType :=
| PtrErrNotFound          (* pointer to model.ErrNotFound *)
| PtrSyntaxError          (* pointer to json.SyntaxError; io.EOF; read errors *)
| PtrUnmarshalTypeError   (* pointer to json.UnmarshalTypeError *)
| OtherErrType.           (* every other dynamic type *)

Record error := { err_type : ErrType; err_text : string }.

(** The [ok] of the type assertion of [err] to a pointer to
    [model.ErrNotFound]. *)
Definition isErrNotFound (e : error) : bool :=
  match err_type e with
  | PtrErrNotFound => true
  | _ => false
  end.

(** ** encoding/json: decoding into the request structs *)

Module json.

(** A number keeps whether its literal is a plain integer: only those
    can be stored in an [int64]. *)
Inductive NumLit :=
| IntLit (z : Z)
| FracLit (text : string).

#[local] Set Warnings "-register-all".
Inductive Value :=
| Null
| Bool (b : bool)
| Number (n : NumLit)
| Str (s : string)
| Array (vs : list Value)
| Object (ms : list (string * Value)).

(** What [Decoder.Decode] finds in the body: either no JSON value can
    be read (empty body, malformed text), or a first value. *)
Inductive Body :=
| Unreadable (e : error)
| Doc (v : Value).

Definition numText (n : NumLit) : string :=
  match n with
  | IntLit z => pretty z
  | FracLit t => t
  end.

(** [UnmarshalTypeError.Value]: the kind of the JSON value.  Only a
    numeric target reports a number together with its literal; a number
    met by a string field or by the struct itself is plain "number". *)
Definition describe (numericTarget : bool) (v : Value) : string :=
  match v with
  | Null => "null"
  | Bool _ => "bool"
  | Number n => if numericTarget then "number " +:+ numText n else "number"
  | Str _ => "string"
  | Array _ => "array"
  | Object _ => "object"
  end.

Definition typeError (numericTarget : bool) (v : Value)
           (where_ goType : string) : error :=
  {| err_type := PtrUnmarshalTypeError;
     err_text := "json: cannot unmarshal " +:+ describe numericTarget v
                 +:+ " into Go " +:+ where_ +:+ " of type " +:+ goType |}.

(** [d.saveError]: the first error wins. *)
Definition saveError (saved : option error) (e : error) : option error :=
  match saved with
  | Some _ => saved
  | None => Some e
  end.

(** Key folding.  ASCII letters are upper-cased; the two non-ASCII
    runes whose simple case folding is an ASCII letter are U+017F
    (bytes C5 BF, folds to S) and U+212A (bytes E2 84 AA, folds to K).
    Other bytes are kept: they never equal a byte of a folded ASCII
    field name. *)
Definition byte (n : nat) : ascii := ascii_of_nat n.

Definition upper (c : ascii) : ascii :=
  let n := nat_of_ascii c in
  if (97 <=? n)%nat && (n <=? 122)%nat then ascii_of_nat (n - 32) else c.

Fixpoint foldName (s : string) : string :=
  match s with
  | EmptyString => EmptyString
  | String a t =>
      match t with
      | String b u =>
          if Ascii.eqb a (byte 197) && Ascii.eqb b (byte 191)
          then String "S" (foldName u)
          else
            match u with
            | String c v =>
                if Ascii.eqb a (byte 226) && Ascii.eqb b (byte 132)
                   && Ascii.eqb c (byte 170)
                then String "K" (foldName v)
                else String (upper a) (foldName t)
            | EmptyString => String (upper a) (foldName t)
            end
      | EmptyString => String (upper a) EmptyString
      end
  end.

(** Does the object key [key] select the struct field tagged [name]? *)
Definition selects (name key : string) : bool :=
  String.eqb (foldName key) (foldName name).
#[global] Arguments selects : simpl never.

Definition int64_min : Z := - 2 ^ 63.
Definition int64_max : Z := 2 ^ 63 - 1.

(** Storing a JSON value into a [string] field. *)
Definition storeString (where_ : string) (v : Value) (old : string)
  : string * option error :=
  match v with
  | Null => (old, None)
  | Str s => (s, None)
  | _ => (old, Some (typeError false v where_ "string"))
  end.

(** Storing a JSON value into an [int64] field. *)
Definition storeInt64 (where_ : string) (v : Value) (old : Z)
  : Z * option error :=
  match v with
  | Null => (old, None)
  | Number (IntLit z) =>
      if (int64_min <=? z) && (z <=? int64_max) then (z, None)
      else (old, Some (typeError true v where_ "int64"))
  | _ => (old, Some (typeError true v where_ "int64"))
  end.

Definition keep (saved new : option error) : option error :=
  match new with
  | Some e => saveError saved e
  | None => saved
  end.

(** One member of a JSON object decoded into a [CreateTODORequest]. *)
Definition memberCreate (acc : CreateTODORequest * option error)
           (m : string * Value) : CreateTODORequest * option error :=
  let '(req, saved) := acc in
  let '(key, v) := m in
  if selects "subject" key then
    let '(s, e) :=
      storeString "struct field CreateTODORequest.subject" v (cr_Subject req) in
    ({| cr_Subject := s; cr_Description := cr_Description req |}, keep saved e)
  else if selects "description" key then
    let '(s, e) :=
      storeString "struct field CreateTODORequest.description" v
                  (cr_Description req) in
    ({| cr_Subject := cr_Subject req; cr_Description := s |}, keep saved e)
  else acc.

(** One member of a JSON object decoded into an [UpdateTODORequest]. *)
Definition memberUpdate (acc : UpdateTODORequest * option error)
           (m : string * Value) : UpdateTODORequest * option error :=
  let '(req, saved) := acc in
  let '(key, v) := m in
  if selects "id" key then
    let '(z, e) :=
      storeInt64 "struct field UpdateTODORequest.id" v (up_ID req) in
    ({| up_ID := z; up_Subject := up_Subject req;
        up_Description := up_Description req |}, keep saved e)
  else if selects "subject" key then
    let '(s, e) :=
      storeString "struct field UpdateTODORequest.subject" v (up_Subject req) in
    ({| up_ID := up_ID req; up_Subject := s;
        up_Description := up_Description req |}, keep saved e)
  else if selects "description" key then
    let '(s, e) :=
      storeString "struct field UpdateTODORequest.description" v
                  (up_Description req) in
    ({| up_ID := up_ID req; up_Subject := up_Subject req;
        up_Description := s |}, keep saved e)
  else acc.

(** [json.NewDecoder(r.Body).Decode(&req)] for the two request shapes:
    the struct as left by the decoder, and the error it returns. *)
Definition DecodeCreate (b : Body) : CreateTODORequest * option error :=
  match b with
  | Unreadable e => (zeroCreateTODORequest, Some e)
  | Doc Null => (zeroCreateTODORequest, None)
  | Doc (Object ms) => fold_left memberCreate ms (zeroCreateTODORequest, None)
  | Doc v => (zeroCreateTODORequest,
              Some (typeError false v "value" "model.CreateTODORequest"))
  end.

Definition DecodeUpdate (b : Body) : UpdateTODORequest * option error :=
  match b with
  | Unreadable e => (zeroUpdateTODORequest, Some e)
  | Doc Null => (zeroUpdateTODORequest, None)
  | Doc (Object ms) => fold_left memberUpdate ms (zeroUpdateTODORequest, None)
  | Doc v => (zeroUpdateTODORequest,
              Some (typeError false v "value" "model.UpdateTODORequest"))
  end.

End json.

(** ** net/http: the response writer and [http.Error] *)

Module http.

Definition MethodPost : string := "POST".
Definition MethodPut : string := "PUT".

Definition StatusOK : Z := 200.
Definition StatusBadRequest : Z := 400.
Definition StatusNotFound : Z := 404.
Definition StatusMethodNotAllowed : Z := 405.
Definition StatusInternalServerError : Z := 500.

(** The handler's view of a response under construction.  [header] is
    the map returned by [w.Header()]; [status] and [sentHeader] are
    fixed by the first [WriteHeader] (0 and empty before it); [written]
    is the body sent so far. *)
Record ResponseWriter := {
  header : gmap string (list string);
  wroteHeader : bool;
  status : Z;
  sentHeader : gmap string (list string);
  written : string
}.

Definition NewResponseWriter : ResponseWriter :=
  {| header := ∅; wroteHeader := false; status := 0;
     sentHeader := ∅; written := "" |}.

(** [w.Header().Set(k, v)] *)
Definition HeaderSet (k v : string) (w : ResponseWriter) : ResponseWriter :=
  {| header := <[k := [v]]> (header w); wroteHeader := wroteHeader w;
     status := status w; sentHeader := sentHeader w; written := written w |}.

(** [w.Header().Del(k)] *)
Definition HeaderDel (k : string) (w : ResponseWriter) : ResponseWriter :=
  {| header := delete k (header w); wroteHeader := wroteHeader w;
     status := status w; sentHeader := sentHeader w; written := written w |}.

(** [w.WriteHeader(code)]: only the first call has an effect. *)
Definition WriteHeader (code : Z) (w : ResponseWriter) : ResponseWriter :=
  if wroteHeader w then w
  else {| header := header w; wroteHeader := true; status := code;
          sentHeader := header w; written := written w |}.

(** [w.Write(b)]: sends the header with 200 if none was sent yet. *)
Definition Write (b : string) (w : ResponseWriter) : ResponseWriter :=
  let w' := WriteHeader StatusOK w in
  {| header := header w'; wroteHeader := wroteHeader w'; status := status w';
     sentHeader := sentHeader w'; written := written w' +:+ b |}.

Definition LF : string := String (ascii_of_nat 10) EmptyString.

(** [http.Error(w, msg, code)] *)
Definition Error (msg : string) (code : Z) (w : ResponseWriter)
  : ResponseWriter :=
  let w := HeaderDel "Content-Length" w in
  let w := HeaderSet "Content-Type" "text/plain; charset=utf-8" w in
  let w := HeaderSet "X-Content-Type-Options" "nosniff" w in
  let w := WriteHeader code w in
  Write (msg +:+ LF) w.

(** [context.Context]: an opaque token handed on to the service. *)
Definition Context := nat.

Record Request := {
  Method : string;
  Body : json.Body;
  Ctx : Context
}.

End http.

(** ** service.TODOService

    The service owns the store [St].  Results are as Go returns them: a
    possibly nil pointer together with a possibly nil error. *)

Record TODOService (St : Type) := {
  CreateTODO : http.Context -> string -> string -> St ->
               (option TODO * option error) * St;
  ReadTODO : http.Context -> Z -> Z -> St ->
             (list TODO * option error) * St;
  UpdateTODO : http.Context -> Z -> string -> string -> St ->
               (option TODO * option error) * St;
  DeleteTODO : http.Context -> list Z -> St -> option error * St
}.
Arguments CreateTODO {St}.
Arguments ReadTODO {St}.
Arguments UpdateTODO {St}.
Arguments DeleteTODO {St}.

(** ** What a handler run leaves behind *)

Inductive Call :=
| CallCreateTODO (ctx : http.Context) (subject description : string)
| CallReadTODO (ctx : http.Context) (prevID size : Z)
| CallUpdateTODO (ctx : http.Context) (id : Z) (subject description : string)
| CallDeleteTODO (ctx : http.Context) (ids : list Z).

(** The values handed to the JSON encoder: the pointers [res]. *)
Inductive Encoded :=
| EncCreate (res : option CreateTODOResponse)
| EncUpdate (res : option UpdateTODOResponse).

Inductive Event :=
| EvDecode                 (* the request body was handed to the decoder *)
| EvBodyClose              (* r.Body.Close() *)
| EvLog (line : string)    (* log.Printf *)
| EvCall (c : Call)        (* a method of the service was invoked *)
| EvEncode (v : Encoded).  (* a value was handed to the encoder *)

Definition calls (tr : list Event) : list Call :=
  omap (fun e => match e with EvCall c => Some c | _ => None end) tr.

Definition logs (tr : list Event) : list string :=
  omap (fun e => match e with EvLog l => Some l | _ => None end) tr.

Definition isDecode (e : Event) : bool :=
  match e with EvDecode => true | _ => false end.

(** Was the request body read? *)
Definition bodyRead (tr : list Event) : bool := existsb isDecode tr.

(** What [json.NewEncoder(w).Encode(v)] does with a value: marshalling
    fails before anything is written, or the text is handed to [w.Write],
    of which [sent] reaches the client before the write returns [e]. *)
Inductive EncodeResult :=
| MarshalFails (e : error)
| Writes (sent : string) (e : option error).

Definition encodeError (r : EncodeResult) : option error :=
  match r with
  | MarshalFails e => Some e
  | Writes _ e => e
  end.

(** ** The handler monad: state, trace and panics *)

Record World (St : Type) := {
  w : http.ResponseWriter;
  store : St;
  trace : list Event
}.
Arguments w {St}.
Arguments store {St}.
Arguments trace {St}.

Inductive Outcome (St A : Type) :=
| Done (a : A) (s : World St)
| Panicked (s : World St).
Arguments Done {St A}.
Arguments Panicked {St A}.

Definition M (St A : Type) : Type := World St -> Outcome St A.

Definition final {St A} (o : Outcome St A) : World St :=
  match o with
  | Done _ s => s
  | Panicked s => s
  end.

Definition panics {St A} (o : Outcome St A) : bool :=
  match o with
  | Done _ _ => false
  | Panicked _ => true
  end.

#[global] Instance M_ret {St} : MRet (M St) := fun A a s => Done a s.

#[global] Instance M_bind {St} : MBind (M St) := fun A B k m s =>
  match m s with
  | Done a s' => k a s'
  | Panicked s' => Panicked s'
  end.

Section Primitives.
Context {St : Type}.

Definition emit (e : Event) : M St unit := fun s =>
  Done tt {| w := w s; store := store s; trace := trace s ++ [e] |}.

Definition onWriter (f : http.ResponseWriter -> http.ResponseWriter)
  : M St unit := fun s =>
  Done tt {| w := f (w s); store := store s; trace := trace s |}.

(** A service method: the call is traced and the store threaded. *)
Definition invoke {A} (c : Call) (f : St -> A * St) : M St A := fun s =>
  let '(a, st) := f (store s) in
  Done a {| w := w s; store := st; trace := trace s ++ [EvCall c] |}.

(** [*p] *)
Definition deref {A} (p : option A) : M St A := fun s =>
  match p with
  | Some a => Done a s
  | None => Panicked s
  end.

(** [defer d] placed in front of [body]: [d] runs when [body] is left,
    by a return or by a panic. *)
Definition defer {A} (d : M St unit) (body : M St A) : M St A := fun s =>
  match body s with
  | Done a s' =>
      match d s' with
      | Done _ s'' => Done a s''
      | Panicked s'' => Panicked s''
      end
  | Panicked s' => Panicked (final (d s'))
  end.

Definition logPrintf (line : string) : M St unit := emit (EvLog line).
Definition closeBody : M St unit := emit EvBodyClose.
Definition httpError (msg : string) (code : Z) : M St unit :=
  onWriter (http.Error msg code).

End Primitives.

(** ** handler/todo.go *)

Module handler.
Section TODOHandler.
Context {St : Type}.

(** [h.svc], and the behaviour of the JSON encoder on the values the
    handler hands to it. *)
Variable svc : TODOService St.
Variable encode : Encoded -> EncodeResult.

(** [json.NewDecoder(r.Body).Decode(&req)] *)
Definition decodeCreate (r : http.Request)
  : M St (CreateTODORequest * option error) :=
  emit EvDecode;; mret (json.DecodeCreate (http.Body r)).

Definition decodeUpdate (r : http.Request)
  : M St (UpdateTODORequest * option error) :=
  emit EvDecode;; mret (json.DecodeUpdate (http.Body r)).

(** [json.NewEncoder(w).Encode(res)] *)
Definition Encode (v : Encoded) : M St (option error) :=
  emit (EvEncode v);;
  match encode v with
  | MarshalFails e => mret (Some e)
  | Writes sent e => onWriter (http.Write sent);; mret e
  end.

(** Create handles the endpoint that creates the TODO. *)
Definition Create (ctx : http.Context) (req : option CreateTODORequest)
  : M St (option CreateTODOResponse * option error) :=
  req ← deref req;
  '(todo, err) ← invoke (CallCreateTODO ctx (cr_Subject req) (cr_Description req))
                        (CreateTODO svc ctx (cr_Subject req) (cr_Description req));
  match err with
  | Some e => mret (None, Some e)
  | None =>
      t ← deref todo;
      mret (Some {| cr_TODO := t |}, None)
  end.

(** Read handles the endpoint that reads the TODOs. *)
Definition Read (ctx : http.Context) (req : option ReadTODORequest)
  : M St (option ReadTODOResponse * option error) :=
  invoke (CallReadTODO ctx 0 0) (ReadTODO svc ctx 0 0);;
  mret (Some zeroReadTODOResponse, None).

(** Update handles the endpoint that updates the TODO. *)
Definition Update (ctx : http.Context) (req : option UpdateTODORequest)
  : M St (option UpdateTODOResponse * option error) :=
  req ← deref req;
  '(todo, err) ← invoke
      (CallUpdateTODO ctx (up_ID req) (up_Subject req) (up_Description req))
      (UpdateTODO svc ctx (up_ID req) (up_Subject req) (up_Description req));
  match err with
  | Some e => mret (None, Some e)
  | None =>
      t ← deref todo;
      mret (Some {| up_TODO := t |}, None)
  end.

(** Delete handles the endpoint that deletes the TODOs. *)
Definition Delete (ctx : http.Context) (req : option DeleteTODORequest)
  : M St (option DeleteTODOResponse * option error) :=
  invoke (CallDeleteTODO ctx []) (DeleteTODO svc ctx []);;
  mret (Some mkDeleteTODOResponse, None).

(** handleCreate handles the POST request to create a new TODO. *)
Definition handleCreate (r : http.Request) : M St unit :=
  '(req, err) ← decodeCreate r;
  match err with
  | Some e =>
      logPrintf ("Error decoding CreateTODORequest: " +:+ err_text e);;
      httpError "Invalid JSON" http.StatusBadRequest
  | None =>
      defer closeBody
        (if String.eqb (cr_Subject req) "" then
           httpError "Subject is required" http.StatusBadRequest
         else
           '(res, err) ← Create (http.Ctx r) (Some req);
           match err with
           | Some _ =>
               httpError "Failed to create TODO" http.StatusInternalServerError
           | None =>
               onWriter (http.HeaderSet "Content-Type" "application/json");;
               onWriter (http.WriteHeader http.StatusOK);;
               err ← Encode (EncCreate res);
               match err with
               | Some _ =>
                   httpError "Failed to encode JSON"
                             http.StatusInternalServerError
               | None => mret tt
               end
           end)
  end.

(** handleUpdate handles the PUT request to update an existing TODO. *)
Definition handleUpdate (r : http.Request) : M St unit :=
  '(req, err) ← decodeUpdate r;
  match err with
  | Some e =>
      logPrintf ("Error decoding UpdateTODORequest: " +:+ err_text e);;
      httpError "Invalid JSON" http.StatusBadRequest
  | None =>
      defer closeBody
        (if Z.eqb (up_ID req) 0 || String.eqb (up_Subject req) "" then
           httpError "Invalid ID or Subject" http.StatusBadRequest
         else
           '(res, err) ← Update (http.Ctx r) (Some req);
           match err with
           | Some e =>
               if isErrNotFound e then
                 httpError "TODO not found" http.StatusNotFound
               else
                 logPrintf ("Error updating TODO: " +:+ err_text e);;
                 httpError "Failed to update TODO"
                           http.StatusInternalServerError
           | None =>
               onWriter (http.HeaderSet "Content-Type" "application/json");;
               onWriter (http.WriteHeader http.StatusOK);;
               err ← Encode (EncUpdate res);
               match err with
               | Some _ =>
                   httpError "Faild to encode JSON"
                             http.StatusInternalServerError
               | None => mret tt
               end
           end)
  end.

(** ServeHTTP handles HTTP requests for the TODO API. *)
Definition ServeHTTP (r : http.Request) : M St unit :=
  if String.eqb (http.Method r) http.MethodPost then handleCreate r
  else if String.eqb (http.Method r) http.MethodPut then handleUpdate r
  else httpError "Method Not Allowed" http.StatusMethodNotAllowed.

(** A request served on a fresh response writer, from store [st]. *)
Definition fresh (st : St) : World St :=
  {| w := http.NewResponseWriter; store := st; trace := [] |}.

Definition serve (r : http.Request) (st : St) : Outcome St unit :=
  ServeHTTP r (fresh st).

End TODOHandler.

(** A TODOHandler implements handling REST endpoints. *)
Record TODOHandler (St : Type) := { svc : TODOService St }.
Arguments svc {St}.

(** NewTODOHandler returns TODOHandler based http.Handler. *)
Definition NewTODOHandler {St : Type} (s : TODOService St) : TODOHandler St :=
  {| svc := s |}.

End handler.

(** ** A test double for the service

    A service over a one-cell store that counts the calls it received and
    answers each method with a fixed result.  It stands in for
    [service.TODOService] where a concrete collaborator is needed. *)

Module stub.

Record Answers := {
  onCreate : option TODO * option error;
  onRead : list TODO * option error;
  onUpdate : option TODO * option error;
  onDelete : option error
}.

Definition service (a : Answers) : TODOService nat :=
  {| CreateTODO := fun _ _ _ n => (onCreate a, S n);
     ReadTODO := fun _ _ _ n => (onRead a, S n);
     UpdateTODO := fun _ _ _ _ n => (onUpdate a, S n);
     DeleteTODO := fun _ _ n => (onDelete a, S n) |}.

Definition milk : TODO :=
  {| ID := 1; Subject := "Buy milk"; Description := "";
     CreatedAt := 1714780800; UpdatedAt := 1714780800 |}.

Definition notFound : error :=
  {| err_type := PtrErrNotFound; err_text := "not found" |}.

Definition dbDown : error :=
  {| err_type := OtherErrType; err_text := "database is locked" |}.

(** Every call succeeds. *)
Definition ok : Answers :=
  {| onCreate := (Some milk, None); onRead := ([milk], None);
     onUpdate := (Some milk, None); onDelete := None |}.

(** Every call fails with a generic error. *)
Definition failing : Answers :=
  {| onCreate := (None, Some dbDown); onRead := ([], Some dbDown);
     onUpdate := (None, Some dbDown); onDelete := Some dbDown |}.

(** The referenced TODO does not exist. *)
Definition missing : Answers :=
  {| onCreate := (Some milk, None); onRead := ([], None);
     onUpdate := (None, Some notFound); onDelete := Some notFound |}.

(** A service that breaks its contract: nil TODO with nil error. *)
Definition nilnil : Answers :=
  {| onCreate := (None, None); onRead := ([], None);
     onUpdate := (None, None); onDelete := None |}.

(** An encoder that prints a fixed text, and one that cannot marshal
    the timestamps of the TODO it is given. *)
Definition encodeOK (v : Encoded) : EncodeResult :=
  Writes "{}" None.

Definition yearOutOfRange : error :=
  {| err_type := OtherErrType;
     err_text := "json: error calling MarshalJSON for type time.Time: "
                 +:+ "Time.MarshalJSON: year outside of range [0,9999]" |}.

Definition encodeFails (v : Encoded) : EncodeResult :=
  MarshalFails yearOutOfRange.

Definition post (b : json.Body) : http.Request :=
  {| http.Method := "POST"; http.Body := b; http.Ctx := 7%nat |}.

Definition put (b : json.Body) : http.Request :=
  {| http.Method := "PUT"; http.Body := b; http.Ctx := 7%nat |}.

Definition obj (ms : list (string * json.Value)) : json.Body :=
  json.Doc (json.Object ms).

End stub.

(** ** Vocabulary of the statements *)

Definition encoded (tr : list Event) : list Encoded :=
  omap (fun e => match e with EvEncode v => Some v | _ => None end) tr.

(** The same request with another body. *)
Definition withBody (b : json.Body) (r : http.Request) : http.Request :=
  {| http.Method := http.Method r; http.Body := b; http.Ctx := http.Ctx r |}.

(** The service contract on which the handler relies when it dereferences
    the returned pointer: a nil error comes with a TODO. *)
Definition nilErrorHasTODO {St} (svc : TODOService St) : Prop :=
  (forall ctx subject description st p st',
      CreateTODO svc ctx subject description st = ((p, None), st') ->
      p <> None) /\
  (forall ctx id subject description st p st',
      UpdateTODO svc ctx id subject description st = ((p, None), st') ->
      p <> None).

(** No member of the object selects the field tagged [name]. *)
Definition absent (name : string) (ms : list (string * json.Value)) : bool :=
  forallb (fun m => negb (json.selects name m.1)) ms.

(** The JSON values that can be stored in a [string] field, and in an
    [int64] field. *)
Definition fitsString (v : json.Value) : bool :=
  match v with
  | json.Null | json.Str _ => true
  | _ => false
  end.

Definition fitsInt64 (v : json.Value) : bool :=
  match v with
  | json.Null => true
  | json.Number (json.IntLit z) =>
      (json.int64_min <=? z) && (z <=? json.int64_max)
  | _ => false
  end.

(** A member that makes decoding into the request shape fail. *)
Definition badForCreate (m : string * json.Value) : bool :=
  (json.selects "subject" m.1 || json.selects "description" m.1)
  && negb (fitsString m.2).

Definition badForUpdate (m : string * json.Value) : bool :=
  if json.selects "id" m.1 then negb (fitsInt64 m.2)
  else (json.selects "subject" m.1 || json.selects "description" m.1)
       && negb (fitsString m.2).

(** The response writer once the success status line is out, and what
    the encoding step then makes of it. *)
Definition okWriter : http.ResponseWriter :=
  http.WriteHeader http.StatusOK
    (http.HeaderSet "Content-Type" "application/json" http.NewResponseWriter).

Definition afterEncode (failure : string) (r : EncodeResult)
  : http.ResponseWriter :=
  match r with
  | MarshalFails _ => http.Error failure 500 okWriter
  | Writes sent None => http.Write sent okWriter
  | Writes sent (Some _) => http.Error failure 500 (http.Write sent okWriter)
  end.

(** How often the request body was closed. *)
Definition isClose (e : Event) : bool :=
  match e with EvBodyClose => true | _ => false end.

Definition closes (tr : list Event) : nat := length (List.filter isClose tr).

(** The request is routed to a flow and its body decodes into the
    request shape of that flow. *)
Definition decodable (r : http.Request) : bool :=
  if String.eqb (http.Method r) http.MethodPost then
    match (json.DecodeCreate (http.Body r)).2 with
    | None => true
    | Some _ => false
    end
  else if String.eqb (http.Method r) http.MethodPut then
    match (json.DecodeUpdate (http.Body r)).2 with
    | None => true
    | Some _ => false
    end
  else false.

(** The texts that the handler passes to [http.Error], as they appear in
    the body. *)
Definition errorLines : list string :=
  [ "Method Not Allowed" +:+ http.LF;
    "Invalid JSON" +:+ http.LF;
    "Subject is required" +:+ http.LF;
    "Invalid ID or Subject" +:+ http.LF;
    "Failed to create TODO" +:+ http.LF;
    "TODO not found" +:+ http.LF;
    "Failed to update TODO" +:+ http.LF ].

(** The members of an object that a request shape looks at. *)
Definition usedByCreate (m : string * json.Value) : bool :=
  json.selects "subject" m.1 || json.selects "description" m.1.

Definition usedByUpdate (m : string * json.Value) : bool :=
  json.selects "id" m.1 || usedByCreate m.

(** * Properties *)

Import handler.

(** ** The paths of the two HTTP flows

    One equation per way through [handleCreate] and [handleUpdate]: the
    world that the flow leaves behind when started on a fresh response
    writer.  The statements below are read off these equations. *)

Ltac handler_unfold :=
  cbv [serve ServeHTTP handleCreate handleUpdate Create Update Read Delete
       decodeCreate decodeUpdate Encode fresh mbind mret M_bind M_ret
       emit onWriter invoke deref defer logPrintf closeBody httpError final].

Section Paths.
Context {St : Type} (svc : TODOService St) (encode : Encoded -> EncodeResult).

#[local] Abbreviation handleCreate := (handleCreate svc encode).
#[local] Abbreviation handleUpdate := (handleUpdate svc encode).
#[local] Abbreviation serve := (serve svc encode).

Lemma serve_post r st :
  http.Method r = "POST" -> serve r st = handleCreate r (fresh st).
Proof. intros H. unfold serve, ServeHTTP. by rewrite H. Qed.

Lemma serve_put r st :
  http.Method r = "PUT" -> serve r st = handleUpdate r (fresh st).
Proof. intros H. unfold serve, ServeHTTP. by rewrite H. Qed.

Lemma serve_other r st :
  http.Method r <> "POST" -> http.Method r <> "PUT" ->
  serve r st =
  Done tt {| w := http.Error "Method Not Allowed" 405 http.NewResponseWriter;
             store := st; trace := [] |}.
Proof.
  intros Hpost Hput. unfold serve, ServeHTTP.
  destruct (String.eqb_spec (http.Method r) http.MethodPost) as [E|_];
    [by destruct Hpost|].
  destruct (String.eqb_spec (http.Method r) http.MethodPut) as [E|_];
    [by destruct Hput|].
  reflexivity.
Qed.

Lemma handleCreate_undecodable r st req e :
  json.DecodeCreate (http.Body r) = (req, Some e) ->
  handleCreate r (fresh st) =
  Done tt {| w := http.Error "Invalid JSON" 400 http.NewResponseWriter;
             store := st;
             trace := [EvDecode;
                       EvLog ("Error decoding CreateTODORequest: "
                              +:+ err_text e)] |}.
Proof. intros H. handler_unfold. by rewrite H. Qed.

Lemma handleCreate_no_subject r st req :
  json.DecodeCreate (http.Body r) = (req, None) ->
  cr_Subject req = "" ->
  handleCreate r (fresh st) =
  Done tt {| w := http.Error "Subject is required" 400 http.NewResponseWriter;
             store := st;
             trace := [EvDecode; EvBodyClose] |}.
Proof. intros H Hs. handler_unfold. by rewrite H, Hs. Qed.

Lemma handleCreate_service_error r st req p e st' :
  json.DecodeCreate (http.Body r) = (req, None) ->
  cr_Subject req <> "" ->
  CreateTODO svc (http.Ctx r) (cr_Subject req) (cr_Description req) st
  = ((p, Some e), st') ->
  handleCreate r (fresh st) =
  Done tt {| w := http.Error "Failed to create TODO" 500 http.NewResponseWriter;
             store := st';
             trace := [EvDecode;
                       EvCall (CallCreateTODO (http.Ctx r) (cr_Subject req)
                                              (cr_Description req));
                       EvBodyClose] |}.
Proof.
  intros H Hs Hsvc. apply String.eqb_neq in Hs.
  handler_unfold. rewrite H, Hs. cbn. by rewrite Hsvc.
Qed.

Lemma handleCreate_nil_todo r st req st' :
  json.DecodeCreate (http.Body r) = (req, None) ->
  cr_Subject req <> "" ->
  CreateTODO svc (http.Ctx r) (cr_Subject req) (cr_Description req) st
  = ((None, None), st') ->
  handleCreate r (fresh st) =
  Panicked {| w := http.NewResponseWriter;
              store := st';
              trace := [EvDecode;
                        EvCall (CallCreateTODO (http.Ctx r) (cr_Subject req)
                                               (cr_Description req));
                        EvBodyClose] |}.
Proof.
  intros H Hs Hsvc. apply String.eqb_neq in Hs.
  handler_unfold. rewrite H, Hs. cbn. by rewrite Hsvc.
Qed.

Lemma handleCreate_success r st req todo st' :
  json.DecodeCreate (http.Body r) = (req, None) ->
  cr_Subject req <> "" ->
  CreateTODO svc (http.Ctx r) (cr_Subject req) (cr_Description req) st
  = ((Some todo, None), st') ->
  handleCreate r (fresh st) =
  Done tt {| w := afterEncode "Failed to encode JSON"
                    (encode (EncCreate (Some {| cr_TODO := todo |})));
             store := st';
             trace := [EvDecode;
                       EvCall (CallCreateTODO (http.Ctx r) (cr_Subject req)
                                              (cr_Description req));
                       EvEncode (EncCreate (Some {| cr_TODO := todo |}));
                       EvBodyClose] |}.
Proof.
  intros H Hs Hsvc. apply String.eqb_neq in Hs.
  handler_unfold. rewrite H, Hs. cbn. rewrite Hsvc. cbn.
  by destruct (encode _) as [?|? [?|]].
Qed.

Lemma handleUpdate_undecodable r st req e :
  json.DecodeUpdate (http.Body r) = (req, Some e) ->
  handleUpdate r (fresh st) =
  Done tt {| w := http.Error "Invalid JSON" 400 http.NewResponseWriter;
             store := st;
             trace := [EvDecode;
                       EvLog ("Error decoding UpdateTODORequest: "
                              +:+ err_text e)] |}.
Proof. intros H. handler_unfold. by rewrite H. Qed.

Lemma handleUpdate_invalid r st req :
  json.DecodeUpdate (http.Body r) = (req, None) ->
  up_ID req = 0 \/ up_Subject req = "" ->
  handleUpdate r (fresh st) =
  Done tt {| w := http.Error "Invalid ID or Subject" 400 http.NewResponseWriter;
             store := st;
             trace := [EvDecode; EvBodyClose] |}.
Proof.
  intros H Hv. handler_unfold. rewrite H.
  destruct Hv as [-> | ->]; [done|].
  by rewrite orb_true_r.
Qed.

Lemma update_valid req :
  up_ID req <> 0 -> up_Subject req <> "" ->
  Z.eqb (up_ID req) 0 || String.eqb (up_Subject req) "" = false.
Proof.
  intros Hid Hs. apply Z.eqb_neq in Hid. apply String.eqb_neq in Hs.
  by rewrite Hid, Hs.
Qed.

Lemma handleUpdate_not_found r st req p e st' :
  json.DecodeUpdate (http.Body r) = (req, None) ->
  up_ID req <> 0 -> up_Subject req <> "" ->
  UpdateTODO svc (http.Ctx r) (up_ID req) (up_Subject req) (up_Description req) st
  = ((p, Some e), st') ->
  isErrNotFound e = true ->
  handleUpdate r (fresh st) =
  Done tt {| w := http.Error "TODO not found" 404 http.NewResponseWriter;
             store := st';
             trace := [EvDecode;
                       EvCall (CallUpdateTODO (http.Ctx r) (up_ID req)
                                 (up_Subject req) (up_Description req));
                       EvBodyClose] |}.
Proof.
  intros H Hid Hs Hsvc He.
  handler_unfold. rewrite H, (update_valid _ Hid Hs). cbn.
  rewrite Hsvc. cbn. by rewrite He.
Qed.

Lemma handleUpdate_service_error r st req p e st' :
  json.DecodeUpdate (http.Body r) = (req, None) ->
  up_ID req <> 0 -> up_Subject req <> "" ->
  UpdateTODO svc (http.Ctx r) (up_ID req) (up_Subject req) (up_Description req) st
  = ((p, Some e), st') ->
  isErrNotFound e = false ->
  handleUpdate r (fresh st) =
  Done tt {| w := http.Error "Failed to update TODO" 500 http.NewResponseWriter;
             store := st';
             trace := [EvDecode;
                       EvCall (CallUpdateTODO (http.Ctx r) (up_ID req)
                                 (up_Subject req) (up_Description req));
                       EvLog ("Error updating TODO: " +:+ err_text e);
                       EvBodyClose] |}.
Proof.
  intros H Hid Hs Hsvc He.
  handler_unfold. rewrite H, (update_valid _ Hid Hs). cbn.
  rewrite Hsvc. cbn. by rewrite He.
Qed.

Lemma handleUpdate_nil_todo r st req st' :
  json.DecodeUpdate (http.Body r) = (req, None) ->
  up_ID req <> 0 -> up_Subject req <> "" ->
  UpdateTODO svc (http.Ctx r) (up_ID req) (up_Subject req) (up_Description req) st
  = ((None, None), st') ->
  handleUpdate r (fresh st) =
  Panicked {| w := http.NewResponseWriter;
              store := st';
              trace := [EvDecode;
                        EvCall (CallUpdateTODO (http.Ctx r) (up_ID req)
                                  (up_Subject req) (up_Description req));
                        EvBodyClose] |}.
Proof.
  intros H Hid Hs Hsvc.
  handler_unfold. rewrite H, (update_valid _ Hid Hs). cbn.
  by rewrite Hsvc.
Qed.

Lemma handleUpdate_success r st req todo st' :
  json.DecodeUpdate (http.Body r) = (req, None) ->
  up_ID req <> 0 -> up_Subject req <> "" ->
  UpdateTODO svc (http.Ctx r) (up_ID req) (up_Subject req) (up_Description req) st
  = ((Some todo, None), st') ->
  handleUpdate r (fresh st) =
  Done tt {| w := afterEncode "Faild to encode JSON"
                    (encode (EncUpdate (Some {| up_TODO := todo |})));
             store := st';
             trace := [EvDecode;
                       EvCall (CallUpdateTODO (http.Ctx r) (up_ID req)
                                 (up_Subject req) (up_Description req));
                       EvEncode (EncUpdate (Some {| up_TODO := todo |}));
                       EvBodyClose] |}.
Proof.
  intros H Hid Hs Hsvc.
  handler_unfold. rewrite H, (update_valid _ Hid Hs). cbn.
  rewrite Hsvc. cbn.
  by destruct (encode _) as [?|? [?|]].
Qed.

End Paths.

(** ** Decoding a JSON object into the request structs *)

Lemma storeString_fits where_ v old :
  (json.storeString where_ v old).2 = None <-> fitsString v = true.
Proof. destruct v; cbn; split; congruence. Qed.

Lemma storeInt64_fits where_ v old :
  (json.storeInt64 where_ v old).2 = None <-> fitsInt64 v = true.
Proof.
  destruct v as [| |[z|]| | |]; cbn; try (split; congruence).
  destruct (_ && _); cbn; split; congruence.
Qed.

Lemma keep_none saved new :
  json.keep saved new = None <-> saved = None /\ new = None.
Proof. destruct saved, new; cbn; split; intros; try tauto; try easy. Qed.

(** A member that selects no field leaves the struct and the saved error
    as they are. *)
Lemma memberCreate_other acc k v :
  json.selects "subject" k = false ->
  json.selects "description" k = false ->
  json.memberCreate acc (k, v) = acc.
Proof. intros H1 H2. destruct acc. cbn. by rewrite H1, H2. Qed.

Lemma memberUpdate_other acc k v :
  json.selects "id" k = false ->
  json.selects "subject" k = false ->
  json.selects "description" k = false ->
  json.memberUpdate acc (k, v) = acc.
Proof. intros H1 H2 H3. destruct acc. cbn. by rewrite H1, H2, H3. Qed.

Lemma memberCreate_keeps_description acc m :
  json.selects "description" m.1 = false ->
  cr_Description (json.memberCreate acc m).1 = cr_Description acc.1.
Proof.
  destruct acc as [req saved], m as [k v]. cbn. intros ->.
  destruct (json.selects "subject" k); [|done].
  by destruct (json.storeString _ _ _).
Qed.

Lemma memberCreate_keeps_subject acc m :
  json.selects "subject" m.1 = false ->
  cr_Subject (json.memberCreate acc m).1 = cr_Subject acc.1.
Proof.
  destruct acc as [req saved], m as [k v]. cbn. intros ->.
  destruct (json.selects "description" k); [|done].
  by destruct (json.storeString _ _ _).
Qed.

Lemma memberUpdate_keeps_id acc m :
  json.selects "id" m.1 = false ->
  up_ID (json.memberUpdate acc m).1 = up_ID acc.1.
Proof.
  destruct acc as [req saved], m as [k v]. cbn. intros ->.
  destruct (json.selects "subject" k); [by destruct (json.storeString _ _ _)|].
  destruct (json.selects "description" k); [|done].
  by destruct (json.storeString _ _ _).
Qed.

Lemma memberUpdate_keeps_subject acc m :
  json.selects "subject" m.1 = false ->
  up_Subject (json.memberUpdate acc m).1 = up_Subject acc.1.
Proof.
  destruct acc as [req saved], m as [k v]. cbn. intros ->.
  destruct (json.selects "id" k); [by destruct (json.storeInt64 _ _ _)|].
  destruct (json.selects "description" k); [|done].
  by destruct (json.storeString _ _ _).
Qed.

Lemma memberUpdate_keeps_description acc m :
  json.selects "description" m.1 = false ->
  up_Description (json.memberUpdate acc m).1 = up_Description acc.1.
Proof.
  destruct acc as [req saved], m as [k v]. cbn. intros ->.
  destruct (json.selects "id" k); [by destruct (json.storeInt64 _ _ _)|].
  destruct (json.selects "subject" k); [|done].
  by destruct (json.storeString _ _ _).
Qed.

(** A field that no member selects keeps the value it had before the
    object was visited. *)
Lemma fold_keeps {A B} (step : A -> string * json.Value -> A) (get : A -> B)
      (name : string) :
  (forall acc m, json.selects name m.1 = false -> get (step acc m) = get acc) ->
  forall ms acc, absent name ms = true ->
                 get (fold_left step ms acc) = get acc.
Proof.
  intros Hstep ms. induction ms as [|m ms IH]; intros acc Habs; [done|].
  cbn in Habs. apply andb_true_iff in Habs as [Hm Hms].
  apply negb_true_iff in Hm.
  cbn. rewrite (IH _ Hms). by apply Hstep.
Qed.

(** The saved error after a member: none iff there was none before and
    the member is not a bad one. *)
Lemma memberCreate_error acc m :
  (json.memberCreate acc m).2 = None <->
  acc.2 = None /\ badForCreate m = false.
Proof.
  destruct acc as [req saved], m as [k v]. unfold badForCreate. cbn.
  destruct (json.selects "subject" k); cbn.
  - destruct (json.storeString _ v (cr_Subject req)) as [s e] eqn:E. cbn.
    rewrite keep_none, negb_false_iff, <- storeString_fits. by rewrite E.
  - destruct (json.selects "description" k); cbn; [|tauto].
    destruct (json.storeString _ v (cr_Description req)) as [s e] eqn:E. cbn.
    rewrite keep_none, negb_false_iff, <- storeString_fits. by rewrite E.
Qed.

Lemma memberUpdate_error acc m :
  (json.memberUpdate acc m).2 = None <->
  acc.2 = None /\ badForUpdate m = false.
Proof.
  destruct acc as [req saved], m as [k v]. unfold badForUpdate. cbn.
  destruct (json.selects "id" k); cbn.
  - destruct (json.storeInt64 _ v (up_ID req)) as [s e] eqn:E. cbn.
    rewrite keep_none, negb_false_iff, <- storeInt64_fits. by rewrite E.
  - destruct (json.selects "subject" k); cbn.
    + destruct (json.storeString _ v (up_Subject req)) as [s e] eqn:E. cbn.
      rewrite keep_none, negb_false_iff, <- storeString_fits. by rewrite E.
    + destruct (json.selects "description" k); cbn; [|tauto].
      destruct (json.storeString _ v (up_Description req)) as [s e] eqn:E. cbn.
      rewrite keep_none, negb_false_iff, <- storeString_fits. by rewrite E.
Qed.

Lemma fold_error {A} (step : A * option error -> string * json.Value
                              -> A * option error)
      (bad : string * json.Value -> bool) :
  (forall acc m, (step acc m).2 = None <-> acc.2 = None /\ bad m = false) ->
  forall ms acc,
    (fold_left step ms acc).2 = None <->
    acc.2 = None /\ existsb bad ms = false.
Proof.
  intros Hstep ms. induction ms as [|m ms IH]; intros acc; cbn; [tauto|].
  rewrite IH, Hstep, orb_false_iff. tauto.
Qed.

(** Decoding an object fails exactly when one of its members is bad for
    the shape: a key that is absent never is. *)
Lemma DecodeCreate_object_error ms :
  (json.DecodeCreate (json.Doc (json.Object ms))).2 = None <->
  existsb badForCreate ms = false.
Proof.
  cbn. rewrite (fold_error _ _ memberCreate_error). cbn. tauto.
Qed.

Lemma DecodeUpdate_object_error ms :
  (json.DecodeUpdate (json.Doc (json.Object ms))).2 = None <->
  existsb badForUpdate ms = false.
Proof.
  cbn. rewrite (fold_error _ _ memberUpdate_error). cbn. tauto.
Qed.

(** ** The specified behaviour of the handler *)

Section Behaviour.
Context {St : Type} (svc : TODOService St) (encode : Encoded -> EncodeResult).

#[local] Abbreviation handleCreate := (handleCreate svc encode).
#[local] Abbreviation handleUpdate := (handleUpdate svc encode).
#[local] Abbreviation serve := (serve svc encode).

(** C1: a POST or PUT request whose decoded Subject is empty, and a PUT
    request whose decoded ID is zero, is answered with status 400; no
    method of the service is invoked and the store is left as it was. *)
Theorem missing_subject_or_id_is_400 (r : http.Request) (st : St) :
  (http.Method r = "POST" /\
   cr_Subject (json.DecodeCreate (http.Body r)).1 = "") \/
  (http.Method r = "PUT" /\
   (up_Subject (json.DecodeUpdate (http.Body r)).1 = "" \/
    up_ID (json.DecodeUpdate (http.Body r)).1 = 0)) ->
  let o := serve r st in
  panics o = false /\
  http.status (w (final o)) = 400 /\
  calls (trace (final o)) = [] /\
  store (final o) = st.
Proof.
  intros [[Hm Hs] | [Hm Hv]] o; subst o.
  - rewrite (serve_post _ _ _ _ Hm).
    destruct (json.DecodeCreate (http.Body r)) as [req [e|]] eqn:Hd; cbn in Hs.
    + by rewrite (handleCreate_undecodable _ _ _ _ _ _ Hd).
    + by rewrite (handleCreate_no_subject _ _ _ _ _ Hd Hs).
  - rewrite (serve_put _ _ _ _ Hm).
    destruct (json.DecodeUpdate (http.Body r)) as [req [e|]] eqn:Hd; cbn in Hv.
    + by rewrite (handleUpdate_undecodable _ _ _ _ _ _ Hd).
    + rewrite (handleUpdate_invalid _ _ _ _ _ Hd); [done | tauto].
Qed.

(** C2: the dispatcher hands a POST request to the Create flow and a PUT
    request to the Update flow.  For every other method it answers 405
    with the fixed text; the body is not read, nothing is logged, the
    service is not invoked, and the outcome is the same whatever the
    body is. *)
Theorem dispatch_by_method (r : http.Request) (st : St) :
  (http.Method r = "POST" -> serve r st = handleCreate r (fresh st)) /\
  (http.Method r = "PUT" -> serve r st = handleUpdate r (fresh st)) /\
  (http.Method r <> "POST" -> http.Method r <> "PUT" ->
   let o := serve r st in
   panics o = false /\
   http.status (w (final o)) = 405 /\
   http.written (w (final o)) = "Method Not Allowed" +:+ http.LF /\
   bodyRead (trace (final o)) = false /\
   trace (final o) = [] /\
   store (final o) = st /\
   forall b, serve (withBody b r) st = o).
Proof.
  split; [apply serve_post|]. split; [apply serve_put|].
  intros Hpost Hput o; subst o.
  rewrite (serve_other _ _ _ _ Hpost Hput).
  repeat split. intros b. by apply serve_other.
Qed.

(** C3: once an Update request has passed validation, an error of the
    service whose dynamic type is the not-found type gives 404; any other
    error gives 500, is logged, and the client only receives the fixed
    text.  In the Create flow every error of the service gives 500 with
    the fixed text, and nothing of the error reaches the body. *)
Theorem service_error_status (r : http.Request) (st st' : St)
        (p : option TODO) (e : error) :
  (forall req,
      http.Method r = "PUT" ->
      json.DecodeUpdate (http.Body r) = (req, None) ->
      up_ID req <> 0 -> up_Subject req <> "" ->
      UpdateTODO svc (http.Ctx r) (up_ID req) (up_Subject req)
                 (up_Description req) st = ((p, Some e), st') ->
      let o := serve r st in
      panics o = false /\
      if isErrNotFound e then
        http.status (w (final o)) = 404 /\
        http.written (w (final o)) = "TODO not found" +:+ http.LF /\
        logs (trace (final o)) = []
      else
        http.status (w (final o)) = 500 /\
        http.written (w (final o)) = "Failed to update TODO" +:+ http.LF /\
        logs (trace (final o)) = ["Error updating TODO: " +:+ err_text e]) /\
  (forall req,
      http.Method r = "POST" ->
      json.DecodeCreate (http.Body r) = (req, None) ->
      cr_Subject req <> "" ->
      CreateTODO svc (http.Ctx r) (cr_Subject req) (cr_Description req) st
      = ((p, Some e), st') ->
      let o := serve r st in
      panics o = false /\
      http.status (w (final o)) = 500 /\
      http.written (w (final o)) = "Failed to create TODO" +:+ http.LF /\
      logs (trace (final o)) = []).
Proof.
  split.
  - intros req Hm Hd Hid Hs Hsvc o; subst o.
    rewrite (serve_put _ _ _ _ Hm).
    destruct (isErrNotFound e) eqn:He.
    + by rewrite (handleUpdate_not_found _ _ _ _ _ _ _ _ Hd Hid Hs Hsvc He).
    + by rewrite (handleUpdate_service_error _ _ _ _ _ _ _ _ Hd Hid Hs Hsvc He).
  - intros req Hm Hd Hs Hsvc o; subst o.
    rewrite (serve_post _ _ _ _ Hm).
    by rewrite (handleCreate_service_error _ _ _ _ _ _ _ _ Hd Hs Hsvc).
Qed.

(** C6: a POST or PUT request whose body does not decode into the
    request shape of its flow is answered with status 400; the decode
    error is logged under the name of the shape; no method of the service
    is invoked and the store is left as it was. *)
Theorem undecodable_body_is_400 (r : http.Request) (st : St) (e : error) :
  (http.Method r = "POST" ->
   (json.DecodeCreate (http.Body r)).2 = Some e ->
   let o := serve r st in
   panics o = false /\
   http.status (w (final o)) = 400 /\
   logs (trace (final o))
   = ["Error decoding CreateTODORequest: " +:+ err_text e] /\
   calls (trace (final o)) = [] /\
   store (final o) = st) /\
  (http.Method r = "PUT" ->
   (json.DecodeUpdate (http.Body r)).2 = Some e ->
   let o := serve r st in
   panics o = false /\
   http.status (w (final o)) = 400 /\
   logs (trace (final o))
   = ["Error decoding UpdateTODORequest: " +:+ err_text e] /\
   calls (trace (final o)) = [] /\
   store (final o) = st).
Proof.
  split; intros Hm Hd o; subst o.
  - rewrite (serve_post _ _ _ _ Hm).
    destruct (json.DecodeCreate (http.Body r)) as [req e'] eqn:Hd'.
    cbn in Hd; subst e'.
    by rewrite (handleCreate_undecodable _ _ _ _ _ _ Hd').
  - rewrite (serve_put _ _ _ _ Hm).
    destruct (json.DecodeUpdate (http.Body r)) as [req e'] eqn:Hd'.
    cbn in Hd; subst e'.
    by rewrite (handleUpdate_undecodable _ _ _ _ _ _ Hd').
Qed.

Lemma afterEncode_status failure res :
  http.status (afterEncode failure res) = 200.
Proof. by destruct res as [?|? [?|]]. Qed.

Lemma afterEncode_content_type failure res :
  http.sentHeader (afterEncode failure res) !! "Content-Type"
  = Some ["application/json"].
Proof. by destruct res as [?|? [?|]]. Qed.

Lemma afterEncode_written failure sent :
  http.written (afterEncode failure (Writes sent None)) = sent.
Proof. reflexivity. Qed.

(** C7: when a POST request passes validation and the create operation
    of the service returns a TODO with a nil error, [Create] returns the
    response that wraps exactly that TODO, the status is 200 with content
    type application/json, that response is the one value handed to the
    encoder, and the body is the encoder's text when encoding succeeds.
    The response therefore carries the ID and the timestamps of the
    service's TODO, and the request's Subject and Description whenever
    the service echoed them. *)
Theorem create_success_wraps_service_todo
        (r : http.Request) (st st' : St) (req : CreateTODORequest) (todo : TODO) :
  http.Method r = "POST" ->
  json.DecodeCreate (http.Body r) = (req, None) ->
  cr_Subject req <> "" ->
  CreateTODO svc (http.Ctx r) (cr_Subject req) (cr_Description req) st
  = ((Some todo, None), st') ->
  let o := serve r st in
  let res := {| cr_TODO := todo |} in
  (exists s, Create svc (http.Ctx r) (Some req) (fresh st)
             = Done (Some res, None) s) /\
  panics o = false /\
  http.status (w (final o)) = 200 /\
  http.sentHeader (w (final o)) !! "Content-Type" = Some ["application/json"] /\
  encoded (trace (final o)) = [EncCreate (Some res)] /\
  (forall sent, encode (EncCreate (Some res)) = Writes sent None ->
                http.written (w (final o)) = sent) /\
  ID (cr_TODO res) = ID todo /\
  CreatedAt (cr_TODO res) = CreatedAt todo /\
  UpdatedAt (cr_TODO res) = UpdatedAt todo /\
  (Subject todo = cr_Subject req -> Subject (cr_TODO res) = cr_Subject req) /\
  (Description todo = cr_Description req ->
   Description (cr_TODO res) = cr_Description req).
Proof.
  intros Hm Hd Hs Hsvc o res; subst o res.
  rewrite (serve_post _ _ _ _ Hm).
  rewrite (handleCreate_success _ _ _ _ _ _ _ Hd Hs Hsvc).
  split.
  { handler_unfold. cbn. rewrite Hsvc. eauto. }
  cbn [final panics w trace store].
  rewrite afterEncode_status, afterEncode_content_type.
  repeat split; try done.
  intros sent ->. apply afterEncode_written.
Qed.

(** What the two flows answer when the success response cannot be
    encoded: the status line sent before the encoding stands. *)
Lemma create_encode_failure_status
      (r : http.Request) (st st' : St) (req : CreateTODORequest) (todo : TODO)
      (e : error) :
  json.DecodeCreate (http.Body r) = (req, None) ->
  cr_Subject req <> "" ->
  CreateTODO svc (http.Ctx r) (cr_Subject req) (cr_Description req) st
  = ((Some todo, None), st') ->
  encodeError (encode (EncCreate (Some {| cr_TODO := todo |}))) = Some e ->
  http.status (w (final (handleCreate r (fresh st)))) = 200.
Proof.
  intros Hd Hs Hsvc _.
  rewrite (handleCreate_success _ _ _ _ _ _ _ Hd Hs Hsvc).
  apply afterEncode_status.
Qed.

Lemma update_encode_failure_status
      (r : http.Request) (st st' : St) (req : UpdateTODORequest) (todo : TODO)
      (e : error) :
  json.DecodeUpdate (http.Body r) = (req, None) ->
  up_ID req <> 0 -> up_Subject req <> "" ->
  UpdateTODO svc (http.Ctx r) (up_ID req) (up_Subject req) (up_Description req) st
  = ((Some todo, None), st') ->
  encodeError (encode (EncUpdate (Some {| up_TODO := todo |}))) = Some e ->
  http.status (w (final (handleUpdate r (fresh st)))) = 200.
Proof.
  intros Hd Hid Hs Hsvc _.
  rewrite (handleUpdate_success _ _ _ _ _ _ _ Hd Hid Hs Hsvc).
  apply afterEncode_status.
Qed.



(** C9: with a service for which a nil error comes with a TODO, neither
    [Create] nor [Update] panics on the pointer it dereferences, and no
    request makes [ServeHTTP] panic, whatever the service answers. *)
Theorem serving_never_panics :
  nilErrorHasTODO svc ->
  (forall ctx req s, panics (Create svc ctx (Some req) s) = false) /\
  (forall ctx req s, panics (Update svc ctx (Some req) s) = false) /\
  (forall r st, panics (serve r st) = false).
Proof.
  intros [Hc Hu].
  assert (HC : forall ctx req s, panics (Create svc ctx (Some req) s) = false).
  { intros ctx req s. handler_unfold.
    destruct (CreateTODO _ _ _ _ _) as [[[t|] [e|]] st'] eqn:E; try done.
    by destruct (Hc _ _ _ _ _ _ E). }
  assert (HU : forall ctx req s, panics (Update svc ctx (Some req) s) = false).
  { intros ctx req s. handler_unfold.
    destruct (UpdateTODO _ _ _ _ _ _) as [[[t|] [e|]] st'] eqn:E; try done.
    by destruct (Hu _ _ _ _ _ _ _ E). }
  repeat split; [done | done |].
  intros r st.
  destruct (String.eqb_spec (http.Method r) "POST") as [Hm|Hpost].
  - rewrite (serve_post _ _ _ _ Hm).
    destruct (json.DecodeCreate (http.Body r)) as [req [e|]] eqn:Hd.
    { by rewrite (handleCreate_undecodable _ _ _ _ _ _ Hd). }
    destruct (String.eqb_spec (cr_Subject req) "") as [Hs|Hs].
    { by rewrite (handleCreate_no_subject _ _ _ _ _ Hd Hs). }
    destruct (CreateTODO svc (http.Ctx r) (cr_Subject req)
                         (cr_Description req) st) as [[p [e|]] st'] eqn:E.
    { by rewrite (handleCreate_service_error _ _ _ _ _ _ _ _ Hd Hs E). }
    destruct p as [t|]; [|by destruct (Hc _ _ _ _ _ _ E)].
    by rewrite (handleCreate_success _ _ _ _ _ _ _ Hd Hs E).
  - destruct (String.eqb_spec (http.Method r) "PUT") as [Hm|Hput];
      [|by rewrite (serve_other _ _ _ _ Hpost Hput)].
    rewrite (serve_put _ _ _ _ Hm).
    destruct (json.DecodeUpdate (http.Body r)) as [req [e|]] eqn:Hd.
    { by rewrite (handleUpdate_undecodable _ _ _ _ _ _ Hd). }
    destruct (Z.eq_dec (up_ID req) 0) as [Hid|Hid].
    { rewrite (handleUpdate_invalid _ _ _ _ _ Hd); [done | by left]. }
    destruct (String.eqb_spec (up_Subject req) "") as [Hs|Hs].
    { rewrite (handleUpdate_invalid _ _ _ _ _ Hd); [done | by right]. }
    destruct (UpdateTODO svc (http.Ctx r) (up_ID req) (up_Subject req)
                         (up_Description req) st) as [[p [e|]] st'] eqn:E.
    { destruct (isErrNotFound e) eqn:He.
      - by rewrite (handleUpdate_not_found _ _ _ _ _ _ _ _ Hd Hid Hs E He).
      - by rewrite (handleUpdate_service_error _ _ _ _ _ _ _ _ Hd Hid Hs E He). }
    destruct p as [t|]; [|by destruct (Hu _ _ _ _ _ _ _ E)].
    by rewrite (handleUpdate_success _ _ _ _ _ _ _ Hd Hid Hs E).
Qed.

(** A request that passed validation reaches the service exactly once,
    with the decoded fields as they are. *)
Lemma handleCreate_valid_calls r st req :
  json.DecodeCreate (http.Body r) = (req, None) ->
  cr_Subject req <> "" ->
  calls (trace (final (handleCreate r (fresh st))))
  = [CallCreateTODO (http.Ctx r) (cr_Subject req) (cr_Description req)].
Proof.
  intros Hd Hs.
  destruct (CreateTODO svc (http.Ctx r) (cr_Subject req)
                       (cr_Description req) st) as [[p [e|]] st'] eqn:E.
  - by rewrite (handleCreate_service_error _ _ _ _ _ _ _ _ Hd Hs E).
  - destruct p as [t|].
    + by rewrite (handleCreate_success _ _ _ _ _ _ _ Hd Hs E).
    + by rewrite (handleCreate_nil_todo _ _ _ _ _ _ Hd Hs E).
Qed.

Lemma handleUpdate_valid_calls r st req :
  json.DecodeUpdate (http.Body r) = (req, None) ->
  up_ID req <> 0 -> up_Subject req <> "" ->
  calls (trace (final (handleUpdate r (fresh st))))
  = [CallUpdateTODO (http.Ctx r) (up_ID req) (up_Subject req)
                    (up_Description req)].
Proof.
  intros Hd Hid Hs.
  destruct (UpdateTODO svc (http.Ctx r) (up_ID req) (up_Subject req)
                       (up_Description req) st) as [[p [e|]] st'] eqn:E.
  - destruct (isErrNotFound e) eqn:He.
    + by rewrite (handleUpdate_not_found _ _ _ _ _ _ _ _ Hd Hid Hs E He).
    + by rewrite (handleUpdate_service_error _ _ _ _ _ _ _ _ Hd Hid Hs E He).
  - destruct p as [t|].
    + by rewrite (handleUpdate_success _ _ _ _ _ _ _ Hd Hid Hs E).
    + by rewrite (handleUpdate_nil_todo _ _ _ _ _ _ Hd Hid Hs E).
Qed.

(** C10: a field that no member of the JSON object selects keeps its zero
    value, and decoding fails only on a member that selects a field and
    does not fit its type, never on an absent one.  So a POST body that
    holds only a non-empty subject is decoded without error and reaches
    the service with an empty Description; and a decoded request is
    handed to the service as soon as its Subject is non-empty (Create) or
    its ID is non-zero and its Subject non-empty (Update), whatever its
    Description is. *)
Theorem absent_fields_decode_to_zero (st : St) :
  (forall ms,
      (absent "subject" ms = true ->
       cr_Subject (json.DecodeCreate (json.Doc (json.Object ms))).1 = "") /\
      (absent "description" ms = true ->
       cr_Description (json.DecodeCreate (json.Doc (json.Object ms))).1 = "") /\
      (absent "id" ms = true ->
       up_ID (json.DecodeUpdate (json.Doc (json.Object ms))).1 = 0) /\
      (absent "subject" ms = true ->
       up_Subject (json.DecodeUpdate (json.Doc (json.Object ms))).1 = "") /\
      (absent "description" ms = true ->
       up_Description (json.DecodeUpdate (json.Doc (json.Object ms))).1 = "") /\
      ((json.DecodeCreate (json.Doc (json.Object ms))).2 = None <->
       existsb badForCreate ms = false) /\
      ((json.DecodeUpdate (json.Doc (json.Object ms))).2 = None <->
       existsb badForUpdate ms = false)) /\
  (forall ctx s,
      s <> "" ->
      let r := {| http.Method := "POST";
                  http.Body := json.Doc (json.Object [("subject", json.Str s)]);
                  http.Ctx := ctx |} in
      json.DecodeCreate (http.Body r)
      = ({| cr_Subject := s; cr_Description := "" |}, None) /\
      calls (trace (final (serve r st))) = [CallCreateTODO ctx s ""]) /\
  (forall r req,
      http.Method r = "POST" ->
      json.DecodeCreate (http.Body r) = (req, None) ->
      cr_Subject req <> "" ->
      calls (trace (final (serve r st)))
      = [CallCreateTODO (http.Ctx r) (cr_Subject req) (cr_Description req)]) /\
  (forall r req,
      http.Method r = "PUT" ->
      json.DecodeUpdate (http.Body r) = (req, None) ->
      up_ID req <> 0 -> up_Subject req <> "" ->
      calls (trace (final (serve r st)))
      = [CallUpdateTODO (http.Ctx r) (up_ID req) (up_Subject req)
                        (up_Description req)]).
Proof.
  assert (Hpost : forall r req,
             http.Method r = "POST" ->
             json.DecodeCreate (http.Body r) = (req, None) ->
             cr_Subject req <> "" ->
             calls (trace (final (serve r st)))
             = [CallCreateTODO (http.Ctx r) (cr_Subject req)
                               (cr_Description req)]).
  { intros r req Hm Hd Hs. rewrite (serve_post _ _ _ _ Hm).
    by apply handleCreate_valid_calls. }
  split; [|split; [|split]].
  - intros ms. repeat split.
    + intros H. cbn.
      by rewrite (fold_keeps json.memberCreate (fun a => cr_Subject a.1)
                    "subject" memberCreate_keeps_subject ms _ H).
    + intros H. cbn.
      by rewrite (fold_keeps json.memberCreate (fun a => cr_Description a.1)
                    "description" memberCreate_keeps_description ms _ H).
    + intros H. cbn.
      by rewrite (fold_keeps json.memberUpdate (fun a => up_ID a.1)
                    "id" memberUpdate_keeps_id ms _ H).
    + intros H. cbn.
      by rewrite (fold_keeps json.memberUpdate (fun a => up_Subject a.1)
                    "subject" memberUpdate_keeps_subject ms _ H).
    + intros H. cbn.
      by rewrite (fold_keeps json.memberUpdate (fun a => up_Description a.1)
                    "description" memberUpdate_keeps_description ms _ H).
    + by apply DecodeCreate_object_error.
    + by apply DecodeCreate_object_error.
    + by apply DecodeUpdate_object_error.
    + by apply DecodeUpdate_object_error.
  - intros ctx s Hs r.
    assert (Hd : json.DecodeCreate (http.Body r)
                 = ({| cr_Subject := s; cr_Description := "" |}, None))
      by reflexivity.
    split; [exact Hd|].
    by rewrite (Hpost r _ eq_refl Hd Hs).
  - exact Hpost.
  - intros r req Hm Hd Hid Hs. rewrite (serve_put _ _ _ _ Hm).
    by apply handleUpdate_valid_calls.
Qed.

End Behaviour.

(** ** The handler on concrete requests *)

Import json stub.

(** C4: [Read] on the request with cursor 5 and page size 10.  The one
    call that reaches the service is [ReadTODO] with cursor 0 and size 0,
    not the request's 5 and 10; the service returns a TODO, and the
    response holds none; a service that fails is answered with the same
    empty response and a nil error. *)
Theorem Read_drops_request_and_result :
  let req := {| rd_PrevID := 5; rd_Size := 10 |} in
  let o := Read (service ok) 7%nat (Some req) (fresh 0%nat) in
  let o' := Read (service failing) 7%nat (Some req) (fresh 0%nat) in
  calls (trace (final o)) = [CallReadTODO 7%nat 0 0] /\
  calls (trace (final o)) <> [CallReadTODO 7%nat (rd_PrevID req) (rd_Size req)] /\
  ReadTODO (service ok) 7%nat 0 0 0%nat = (([milk], None), 1%nat) /\
  (exists s, o = Done (Some {| rd_TODOs := [] |}, None) s) /\
  ReadTODO (service failing) 7%nat 0 0 0%nat = (([], Some dbDown), 1%nat) /\
  (exists s, o' = Done (Some {| rd_TODOs := [] |}, None) s).
Proof.
  cbv zeta. repeat split; try (by eexists); discriminate.
Qed.

(** C5: [Delete] on the request with the IDs 1 and 2.  The one call that
    reaches the service is [DeleteTODO] with no ID at all, and a service
    that fails is answered with the empty response and a nil error. *)
Theorem Delete_drops_ids_and_error :
  let req := {| del_IDs := [1; 2] |} in
  let o := Delete (service ok) 7%nat (Some req) (fresh 0%nat) in
  let o' := Delete (service failing) 7%nat (Some req) (fresh 0%nat) in
  calls (trace (final o)) = [CallDeleteTODO 7%nat []] /\
  calls (trace (final o)) <> [CallDeleteTODO 7%nat (del_IDs req)] /\
  (exists s, o = Done (Some mkDeleteTODOResponse, None) s) /\
  DeleteTODO (service failing) 7%nat [] 0%nat = (Some dbDown, 1%nat) /\
  (exists s, o' = Done (Some mkDeleteTODOResponse, None) s).
Proof.
  cbv zeta. repeat split; try (by eexists); discriminate.
Qed.

(** C8: a POST and a PUT request that reach the success path with an
    encoder that fails.  The status of the response is the 200 that was
    sent before the encoding, not 500; the 500 of the failure branch only
    adds its text to the body. *)
Theorem encode_failure_is_still_200 :
  let o := serve (service ok) encodeFails
                 (post (obj [("subject", Str "Buy milk")])) 0%nat in
  let o' := serve (service ok) encodeFails
                  (put (obj [("id", Number (IntLit 1));
                             ("subject", Str "Buy milk")])) 0%nat in
  encodeError (encodeFails (EncCreate (Some {| cr_TODO := milk |})))
  = Some yearOutOfRange /\
  calls (trace (final o)) = [CallCreateTODO 7%nat "Buy milk" ""] /\
  http.status (w (final o)) = 200 /\
  http.status (w (final o)) <> 500 /\
  http.written (w (final o)) = "Failed to encode JSON" +:+ http.LF /\
  calls (trace (final o')) = [CallUpdateTODO 7%nat 1 "Buy milk" ""] /\
  http.status (w (final o')) = 200 /\
  http.status (w (final o')) <> 500 /\
  http.written (w (final o')) = "Faild to encode JSON" +:+ http.LF.
Proof.
  cbv zeta. repeat split; discriminate.
Qed.

(** The test double [ok] keeps the contract; [nilnil] breaks it, and the
    handler then panics on the nil pointer. *)
Lemma ok_keeps_contract : nilErrorHasTODO (service ok).
Proof. split; intros; cbn in *; congruence. Qed.

Lemma nil_todo_with_nil_error_panics :
  panics (serve (service nilnil) encodeOK
                (post (obj [("subject", Str "Buy milk")])) 0%nat) = true.
Proof. reflexivity. Qed.

(** *** Instances of the conditional statements *)

Lemma missing_subject_or_id_is_400_witness :
  (let o := serve (service ok) encodeOK
                  (post (obj [("subject", Str ""); ("description", Str "d")]))
                  0%nat in
   panics o = false /\ http.status (w (final o)) = 400 /\
   calls (trace (final o)) = [] /\ store (final o) = 0%nat) /\
  (let o := serve (service ok) encodeOK
                  (put (obj [("id", Number (IntLit 1)); ("subject", Str "")]))
                  0%nat in
   panics o = false /\ http.status (w (final o)) = 400 /\
   calls (trace (final o)) = [] /\ store (final o) = 0%nat) /\
  (let o := serve (service ok) encodeOK
                  (put (obj [("id", Number (IntLit 0)); ("subject", Str "x")]))
                  0%nat in
   panics o = false /\ http.status (w (final o)) = 400 /\
   calls (trace (final o)) = [] /\ store (final o) = 0%nat).
Proof.
  split; [|split]; apply missing_subject_or_id_is_400.
  - left. split; reflexivity.
  - right. split; [reflexivity | left; reflexivity].
  - right. split; [reflexivity | right; reflexivity].
Defined.

Lemma dispatch_by_method_witness :
  let r := {| http.Method := "DELETE";
              http.Body := obj [("subject", Str "Buy milk")];
              http.Ctx := 7%nat |} in
  let o := serve (service ok) encodeOK r 0%nat in
  panics o = false /\
  http.status (w (final o)) = 405 /\
  http.written (w (final o)) = "Method Not Allowed" +:+ http.LF /\
  bodyRead (trace (final o)) = false /\
  trace (final o) = [] /\
  store (final o) = 0%nat /\
  forall b, serve (service ok) encodeOK (withBody b r) 0%nat = o.
Proof.
  cbv zeta.
  apply (proj2 (proj2 (dispatch_by_method (service ok) encodeOK _ 0%nat)));
    discriminate.
Defined.

Lemma service_error_status_witness :
  (let o := serve (service missing) encodeOK
                  (put (obj [("id", Number (IntLit 999)); ("subject", Str "x")]))
                  0%nat in
   panics o = false /\
   http.status (w (final o)) = 404 /\
   http.written (w (final o)) = "TODO not found" +:+ http.LF /\
   logs (trace (final o)) = []) /\
  (let o := serve (service failing) encodeOK
                  (put (obj [("id", Number (IntLit 999)); ("subject", Str "x")]))
                  0%nat in
   panics o = false /\
   http.status (w (final o)) = 500 /\
   http.written (w (final o)) = "Failed to update TODO" +:+ http.LF /\
   logs (trace (final o)) = ["Error updating TODO: database is locked"]) /\
  (let o := serve (service failing) encodeOK
                  (post (obj [("subject", Str "x")])) 0%nat in
   panics o = false /\
   http.status (w (final o)) = 500 /\
   http.written (w (final o)) = "Failed to create TODO" +:+ http.LF /\
   logs (trace (final o)) = []).
Proof.
  split; [|split].
  - refine (proj1 (service_error_status (service missing) encodeOK
                     (put (obj [("id", Number (IntLit 999)); ("subject", Str "x")]))
                     0%nat 1%nat None notFound) _ _ _ _ _ _);
      [reflexivity | reflexivity | discriminate | discriminate | reflexivity].
  - refine (proj1 (service_error_status (service failing) encodeOK
                     (put (obj [("id", Number (IntLit 999)); ("subject", Str "x")]))
                     0%nat 1%nat None dbDown) _ _ _ _ _ _);
      [reflexivity | reflexivity | discriminate | discriminate | reflexivity].
  - refine (proj2 (service_error_status (service failing) encodeOK
                     (post (obj [("subject", Str "x")]))
                     0%nat 1%nat None dbDown) _ _ _ _ _);
      [reflexivity | reflexivity | discriminate | reflexivity].
Defined.

Lemma undecodable_body_is_400_witness :
  (let o := serve (service ok) encodeOK
                  (post (obj [("subject", Number (IntLit 42))])) 0%nat in
   panics o = false /\
   http.status (w (final o)) = 400 /\
   logs (trace (final o))
   = ["Error decoding CreateTODORequest: json: cannot unmarshal number "
      +:+ "into Go struct field CreateTODORequest.subject of type string"] /\
   calls (trace (final o)) = [] /\
   store (final o) = 0%nat) /\
  (let o := serve (service ok) encodeOK
                  (put (Unreadable {| err_type := PtrSyntaxError;
                                      err_text := "unexpected EOF" |}))
                  0%nat in
   panics o = false /\
   http.status (w (final o)) = 400 /\
   logs (trace (final o)) = ["Error decoding UpdateTODORequest: unexpected EOF"] /\
   calls (trace (final o)) = [] /\
   store (final o) = 0%nat) /\
  (let o := serve (service ok) encodeOK (put (Doc (Number (IntLit 42))))
                  0%nat in
   panics o = false /\
   http.status (w (final o)) = 400 /\
   logs (trace (final o))
   = ["Error decoding UpdateTODORequest: json: cannot unmarshal number "
      +:+ "into Go value of type model.UpdateTODORequest"] /\
   calls (trace (final o)) = [] /\
   store (final o) = 0%nat) /\
  (let o := serve (service ok) encodeOK
                  (put (obj [("id", Number (FracLit "1.5"));
                             ("subject", Str "x")])) 0%nat in
   panics o = false /\
   http.status (w (final o)) = 400 /\
   logs (trace (final o))
   = ["Error decoding UpdateTODORequest: json: cannot unmarshal number 1.5 "
      +:+ "into Go struct field UpdateTODORequest.id of type int64"] /\
   calls (trace (final o)) = [] /\
   store (final o) = 0%nat).
Proof.
  split; [|split; [|split]].
  - refine (proj1 (undecodable_body_is_400 (service ok) encodeOK
                     (post (obj [("subject", Number (IntLit 42))])) 0%nat
                     (typeError false (Number (IntLit 42))
                        "struct field CreateTODORequest.subject" "string"))
                  _ _);
      reflexivity.
  - refine (proj2 (undecodable_body_is_400 (service ok) encodeOK
                     (put (Unreadable {| err_type := PtrSyntaxError;
                                         err_text := "unexpected EOF" |}))
                     0%nat
                     {| err_type := PtrSyntaxError;
                        err_text := "unexpected EOF" |}) _ _);
      reflexivity.
  - refine (proj2 (undecodable_body_is_400 (service ok) encodeOK
                     (put (Doc (Number (IntLit 42)))) 0%nat
                     (typeError false (Number (IntLit 42))
                        "value" "model.UpdateTODORequest")) _ _);
      reflexivity.
  - refine (proj2 (undecodable_body_is_400 (service ok) encodeOK
                     (put (obj [("id", Number (FracLit "1.5"));
                                ("subject", Str "x")])) 0%nat
                     (typeError true (Number (FracLit "1.5"))
                        "struct field UpdateTODORequest.id" "int64")) _ _);
      reflexivity.
Defined.

Lemma create_success_wraps_service_todo_witness :
  let r := post (obj [("subject", Str "Buy milk"); ("description", Str "")]) in
  let o := serve (service ok) encodeOK r 0%nat in
  let res := {| cr_TODO := milk |} in
  (exists s, Create (service ok) (http.Ctx r)
                    (Some {| cr_Subject := "Buy milk"; cr_Description := "" |})
                    (fresh 0%nat)
             = Done (Some res, None) s) /\
  panics o = false /\
  http.status (w (final o)) = 200 /\
  http.sentHeader (w (final o)) !! "Content-Type" = Some ["application/json"] /\
  encoded (trace (final o)) = [EncCreate (Some res)] /\
  (forall sent, encodeOK (EncCreate (Some res)) = Writes sent None ->
                http.written (w (final o)) = sent) /\
  ID (cr_TODO res) = 1 /\
  CreatedAt (cr_TODO res) = 1714780800 /\
  UpdatedAt (cr_TODO res) = 1714780800 /\
  (Subject milk = "Buy milk" -> Subject (cr_TODO res) = "Buy milk") /\
  (Description milk = "" -> Description (cr_TODO res) = "").
Proof.
  cbv zeta.
  refine (create_success_wraps_service_todo (service ok) encodeOK
            (post (obj [("subject", Str "Buy milk"); ("description", Str "")]))
            0%nat 1%nat
            {| cr_Subject := "Buy milk"; cr_Description := "" |} milk
            _ _ _ _);
    [reflexivity | reflexivity | discriminate | reflexivity].
Defined.

Lemma serving_never_panics_witness :
  panics (Create (service ok) 7%nat
                 (Some {| cr_Subject := "Buy milk"; cr_Description := "" |})
                 (fresh 0%nat)) = false /\
  panics (Update (service missing) 7%nat
                 (Some {| up_ID := 999; up_Subject := "x"; up_Description := "" |})
                 (fresh 0%nat)) = false /\
  panics (serve (service ok) encodeFails
                (put (obj [("id", Number (IntLit 1)); ("subject", Str "x")]))
                0%nat) = false.
Proof.
  split; [|split].
  - apply (proj1 (serving_never_panics (service ok) encodeOK ok_keeps_contract)).
  - refine (proj1 (proj2 (serving_never_panics (service missing) encodeOK _)) _ _ _).
    split; intros; cbn in *; congruence.
  - apply (proj2 (proj2 (serving_never_panics (service ok) encodeFails
                           ok_keeps_contract))).
Defined.

Lemma absent_fields_decode_to_zero_witness :
  cr_Description (DecodeCreate (obj [("subject", Str "Buy milk")])).1 = "" /\
  up_ID (DecodeUpdate (obj [("subject", Str "x"); ("SUBJECT", Null)])).1 = 0 /\
  (let r := post (obj [("subject", Str "Buy milk")]) in
   DecodeCreate (http.Body r)
   = ({| cr_Subject := "Buy milk"; cr_Description := "" |}, None) /\
   calls (trace (final (serve (service ok) encodeOK r 0%nat)))
   = [CallCreateTODO 7%nat "Buy milk" ""]) /\
  calls (trace (final (serve (service ok) encodeOK
                         (put (obj [("id", Number (IntLit 3));
                                    ("subject", Str "x");
                                    ("description", Str "anything at all")]))
                         0%nat)))
  = [CallUpdateTODO 7%nat 3 "x" "anything at all"].
Proof.
  pose proof (absent_fields_decode_to_zero (service ok) encodeOK 0%nat)
    as (Habsent & Hpost & _ & Hput).
  split; [|split; [|split]].
  - apply (proj1 (proj2 (Habsent [("subject", Str "Buy milk")]))). reflexivity.
  - apply (proj1 (proj2 (proj2 (Habsent [("subject", Str "x"); ("SUBJECT", Null)])))).
    reflexivity.
  - apply (Hpost 7%nat "Buy milk"). discriminate.
  - refine (Hput (put (obj [("id", Number (IntLit 3)); ("subject", Str "x");
                            ("description", Str "anything at all")]))
                 {| up_ID := 3; up_Subject := "x";
                    up_Description := "anything at all" |} _ _ _ _);
      [reflexivity | reflexivity | discriminate | discriminate].
Defined.

(** ** Further properties of the handler

    Statements about every request, obtained by going through all the
    paths of [ServeHTTP] at once. *)

(** Splits a goal about [serve svc encode r st] into the paths of the
    two flows and rewrites the outcome of each. *)
Ltac serve_paths svc encode r st :=
  let Hm := fresh "Hm" in
  let Hpost := fresh "Hpost" in
  let Hput := fresh "Hput" in
  let Hd := fresh "Hd" in
  let Hid := fresh "Hid" in
  let Hs := fresh "Hs" in
  let E := fresh "E" in
  let He := fresh "He" in
  let req := fresh "req" in
  let e := fresh "e" in
  let p := fresh "p" in
  let t := fresh "t" in
  let st' := fresh "st'" in
  destruct (String.eqb_spec (http.Method r) "POST") as [Hm|Hpost];
  [ rewrite ?(serve_post svc encode r st Hm);
    destruct (json.DecodeCreate (http.Body r)) as [req [e|]] eqn:Hd;
    [ rewrite ?(handleCreate_undecodable svc encode r st req e Hd)
    | destruct (String.eqb_spec (cr_Subject req) "") as [Hs|Hs];
      [ rewrite ?(handleCreate_no_subject svc encode r st req Hd Hs)
      | destruct (CreateTODO svc (http.Ctx r) (cr_Subject req)
                             (cr_Description req) st)
          as [[p [e|]] st'] eqn:E;
        [ rewrite ?(handleCreate_service_error svc encode r st req p e st'
                      Hd Hs E)
        | destruct p as [t|];
          [ rewrite ?(handleCreate_success svc encode r st req t st' Hd Hs E)
          | rewrite ?(handleCreate_nil_todo svc encode r st req st' Hd Hs E) ] ] ] ]
  | destruct (String.eqb_spec (http.Method r) "PUT") as [Hm|Hput];
    [ rewrite ?(serve_put svc encode r st Hm);
      destruct (json.DecodeUpdate (http.Body r)) as [req [e|]] eqn:Hd;
      [ rewrite ?(handleUpdate_undecodable svc encode r st req e Hd)
      | destruct (Z.eq_dec (up_ID req) 0) as [Hid|Hid];
        [ rewrite ?(handleUpdate_invalid svc encode r st req Hd (or_introl Hid))
        | destruct (String.eqb_spec (up_Subject req) "") as [Hs|Hs];
          [ rewrite ?(handleUpdate_invalid svc encode r st req Hd (or_intror Hs))
          | destruct (UpdateTODO svc (http.Ctx r) (up_ID req) (up_Subject req)
                                 (up_Description req) st)
              as [[p [e|]] st'] eqn:E;
            [ destruct (isErrNotFound e) eqn:He;
              [ rewrite ?(handleUpdate_not_found svc encode r st req p e st'
                            Hd Hid Hs E He)
              | rewrite ?(handleUpdate_service_error svc encode r st req p e st'
                            Hd Hid Hs E He) ]
            | destruct p as [t|];
              [ rewrite ?(handleUpdate_success svc encode r st req t st'
                            Hd Hid Hs E)
              | rewrite ?(handleUpdate_nil_todo svc encode r st req st'
                            Hd Hid Hs E) ] ] ] ] ]
    | rewrite ?(serve_other svc encode r st Hpost Hput) ] ].

Section Coverage.
Context {St : Type} (svc : TODOService St) (encode : Encoded -> EncodeResult).

#[local] Abbreviation serve := (serve svc encode).

Lemma afterEncode_wroteHeader failure res :
  http.wroteHeader (afterEncode failure res) = true.
Proof. by destruct res as [?|? [?|]]. Qed.

(** X1: the service is invoked at most once per request, and only
    through [CreateTODO] (POST) or [UpdateTODO] (PUT), never through
    [ReadTODO] or [DeleteTODO]; the call carries the request's context
    and exactly the fields of the decoded request, which passed
    validation. *)
Theorem service_called_at_most_once (r : http.Request) (st : St) :
  match calls (trace (final (serve r st))) with
  | [] => True
  | [CallCreateTODO ctx subject description] =>
      http.Method r = "POST" /\ ctx = http.Ctx r /\
      json.DecodeCreate (http.Body r)
      = ({| cr_Subject := subject; cr_Description := description |}, None) /\
      subject <> ""
  | [CallUpdateTODO ctx id subject description] =>
      http.Method r = "PUT" /\ ctx = http.Ctx r /\
      json.DecodeUpdate (http.Body r)
      = ({| up_ID := id; up_Subject := subject;
            up_Description := description |}, None) /\
      id <> 0 /\ subject <> ""
  | _ => False
  end.
Proof.
  serve_paths svc encode r st; cbn; try done; by destruct req.
Qed.

(** X2: the store after a request is the store that the one service
    call left, also when the encoder fails afterwards or the handler
    panics; a request that does not reach the service leaves the store
    as it was. *)
Theorem store_changes_only_through_the_call (r : http.Request) (st : St) :
  store (final (serve r st)) =
  match calls (trace (final (serve r st))) with
  | [CallCreateTODO ctx subject description] =>
      (CreateTODO svc ctx subject description st).2
  | [CallUpdateTODO ctx id subject description] =>
      (UpdateTODO svc ctx id subject description st).2
  | _ => st
  end.
Proof.
  serve_paths svc encode r st; cbn; try done; by rewrite E.
Qed.

(** X3: the handler closes the request body exactly once, as the last
    thing it does, when the body decoded into the request shape of its
    flow (whatever happens afterwards, a panic included), and not at all
    when the decoding failed or the method is not routed. *)
Theorem body_closed_iff_decoded (r : http.Request) (st : St) :
  closes (trace (final (serve r st))) = (if decodable r then 1 else 0)%nat /\
  (decodable r = true ->
   List.last (trace (final (serve r st))) EvDecode = EvBodyClose) /\
  (decodable r = false -> bodyRead (trace (final (serve r st))) = true ->
   exists line, List.last (trace (final (serve r st))) EvDecode = EvLog line).
Proof.
  unfold decodable, http.MethodPost, http.MethodPut.
  serve_paths svc encode r st; cbn;
    rewrite ?Hm; cbn;
    try (apply String.eqb_neq in Hpost; rewrite Hpost);
    try (apply String.eqb_neq in Hput; rewrite Hput);
    repeat split; try done; eauto.
Qed.

(** X4: a request that is served without a panic is answered with one
    of the statuses 200, 400, 404, 405 and 500; 200 comes with content
    type application/json, every other status with text/plain and
    nosniff; 404 is only given to PUT, 405 exactly to the methods other
    than POST and PUT.  When the handler panics, no status line and no
    body were written. *)
Theorem status_and_content_type (r : http.Request) (st : St) :
  let o := serve r st in
  let rw := w (final o) in
  if panics o then
    http.wroteHeader rw = false /\ http.written rw = ""
  else
    http.wroteHeader rw = true /\
    In (http.status rw) [200; 400; 404; 405; 500] /\
    (http.status rw = 200 ->
     http.sentHeader rw !! "Content-Type" = Some ["application/json"]) /\
    (http.status rw <> 200 ->
     http.sentHeader rw !! "Content-Type" = Some ["text/plain; charset=utf-8"] /\
     http.sentHeader rw !! "X-Content-Type-Options" = Some ["nosniff"]) /\
    (http.status rw = 404 -> http.Method r = "PUT") /\
    (http.status rw = 405 <->
     http.Method r <> "POST" /\ http.Method r <> "PUT").
Proof.
  cbv zeta.
  serve_paths svc encode r st; cbn [panics final w];
    rewrite ?afterEncode_status, ?afterEncode_wroteHeader,
            ?afterEncode_content_type;
    try (split; reflexivity);
    (split; [reflexivity|]);
    (split; [cbn; tauto|]);
    repeat split; try done; try (intros [? ?]; congruence);
    try (intros ?; congruence).
Qed.

(** X5: when a request is served without a panic and the status is not
    200, the body is one of the seven fixed lines of the handler: no text
    of a decode error or of a service error reaches the client. *)
Theorem error_body_is_a_fixed_line (r : http.Request) (st : St) :
  panics (serve r st) = false ->
  http.status (w (final (serve r st))) <> 200 ->
  In (http.written (w (final (serve r st)))) errorLines.
Proof.
  serve_paths svc encode r st; cbn [panics final w];
    rewrite ?afterEncode_status; intros Hp Hst; try done;
    cbn; tauto.
Qed.

(** X6: at most one line is logged per request.  In the Create flow a
    line is logged exactly when the body does not decode: a failure of
    the service is answered with 500 and not logged.  In the Update flow
    a line is logged exactly when the body does not decode or the status
    is 500.  No line is logged for a method that is not routed. *)
Theorem log_lines (r : http.Request) (st : St) :
  let o := serve r st in
  (length (logs (trace (final o))) <= 1)%nat /\
  (http.Method r = "POST" ->
   (logs (trace (final o)) <> [] <-> decodable r = false)) /\
  (http.Method r = "PUT" ->
   (logs (trace (final o)) <> [] <->
    decodable r = false \/ http.status (w (final o)) = 500)) /\
  (http.Method r <> "POST" -> http.Method r <> "PUT" ->
   logs (trace (final o)) = []).
Proof.
  cbv zeta. unfold decodable, http.MethodPost, http.MethodPut.
  serve_paths svc encode r st; cbn [final trace w logs omap];
    rewrite ?afterEncode_status; rewrite ?Hm; cbn;
    (split; [lia|]);
    repeat split; try done; try tauto; try congruence;
    try (intros [?|?]; congruence).
Qed.

(** X7: the encoder is invoked exactly for the responses with status
    200, once, and never on a nil pointer: the value it is handed wraps
    the TODO that the one service call of the request returned with a
    nil error. *)
Theorem encoder_gets_the_service_todo (r : http.Request) (st : St) :
  let o := serve r st in
  match encoded (trace (final o)) with
  | [] => http.status (w (final o)) <> 200
  | [EncCreate (Some res)] =>
      http.Method r = "POST" /\
      http.status (w (final o)) = 200 /\
      exists ctx subject description,
        calls (trace (final o)) = [CallCreateTODO ctx subject description] /\
        CreateTODO svc ctx subject description st
        = ((Some (cr_TODO res), None), store (final o))
  | [EncUpdate (Some res)] =>
      http.Method r = "PUT" /\
      http.status (w (final o)) = 200 /\
      exists ctx id subject description,
        calls (trace (final o)) = [CallUpdateTODO ctx id subject description] /\
        UpdateTODO svc ctx id subject description st
        = ((Some (up_TODO res), None), store (final o))
  | _ => False
  end.
Proof.
  cbv zeta.
  serve_paths svc encode r st; cbn [final trace w store encoded omap];
    rewrite ?afterEncode_status; cbn; try done.
  - repeat split; try done. by eexists _, _, _.
  - repeat split; try done. by eexists _, _, _, _.
Qed.

(** X8: what [Create] and [Update] return.  With a request, exactly one
    of the response and the error is non-nil: the error is the one the
    service returned (a TODO returned beside it is dropped), the response
    wraps the TODO returned with a nil error; they panic when the service
    returns neither.  The service is called once with the fields of the
    request and the response writer is not touched.  On a nil request
    they panic before the service is called. *)
Theorem Create_and_Update_results (ctx : http.Context) (s : World St) :
  (forall req,
      let o := Create svc ctx (Some req) s in
      let call := CallCreateTODO ctx (cr_Subject req) (cr_Description req) in
      let answer := CreateTODO svc ctx (cr_Subject req) (cr_Description req)
                               (store s) in
      final o = {| w := w s; store := answer.2;
                   trace := trace s ++ [EvCall call] |} /\
      match o with
      | Done (Some res, None) _ => answer.1 = (Some (cr_TODO res), None)
      | Done (None, Some e) _ => answer.1.2 = Some e
      | Done _ _ => False
      | Panicked _ => answer.1 = (None, None)
      end) /\
  (forall req,
      let o := Update svc ctx (Some req) s in
      let call := CallUpdateTODO ctx (up_ID req) (up_Subject req)
                                 (up_Description req) in
      let answer := UpdateTODO svc ctx (up_ID req) (up_Subject req)
                               (up_Description req) (store s) in
      final o = {| w := w s; store := answer.2;
                   trace := trace s ++ [EvCall call] |} /\
      match o with
      | Done (Some res, None) _ => answer.1 = (Some (up_TODO res), None)
      | Done (None, Some e) _ => answer.1.2 = Some e
      | Done _ _ => False
      | Panicked _ => answer.1 = (None, None)
      end) /\
  Create svc ctx None s = Panicked s /\
  Update svc ctx None s = Panicked s.
Proof.
  repeat split.
  - handler_unfold. by destruct (CreateTODO _ _ _ _ _) as [[[t|] [e|]] st'].
  - handler_unfold. by destruct (CreateTODO _ _ _ _ _) as [[[t|] [e|]] st'].
  - handler_unfold. by destruct (UpdateTODO _ _ _ _ _ _) as [[[t|] [e|]] st'].
  - handler_unfold. by destruct (UpdateTODO _ _ _ _ _ _) as [[[t|] [e|]] st'].
Qed.


(** X10: when a PUT request passes validation and the update operation
    of the service returns a TODO with a nil error, [Update] returns the
    response that wraps exactly that TODO, the status is 200 with content
    type application/json, nothing is logged, that response is the one
    value handed to the encoder, and the body is the encoder's text when
    encoding succeeds. *)
Theorem update_success_wraps_service_todo
        (r : http.Request) (st st' : St) (req : UpdateTODORequest) (todo : TODO) :
  http.Method r = "PUT" ->
  json.DecodeUpdate (http.Body r) = (req, None) ->
  up_ID req <> 0 -> up_Subject req <> "" ->
  UpdateTODO svc (http.Ctx r) (up_ID req) (up_Subject req) (up_Description req) st
  = ((Some todo, None), st') ->
  let o := serve r st in
  let res := {| up_TODO := todo |} in
  (exists s, Update svc (http.Ctx r) (Some req) (fresh st)
             = Done (Some res, None) s) /\
  panics o = false /\
  http.status (w (final o)) = 200 /\
  http.sentHeader (w (final o)) !! "Content-Type" = Some ["application/json"] /\
  logs (trace (final o)) = [] /\
  encoded (trace (final o)) = [EncUpdate (Some res)] /\
  store (final o) = st' /\
  (forall sent, encode (EncUpdate (Some res)) = Writes sent None ->
                http.written (w (final o)) = sent).
Proof.
  intros Hm Hd Hid Hs Hsvc o res; subst o res.
  rewrite (serve_put _ _ _ _ Hm).
  rewrite (handleUpdate_success _ _ _ _ _ _ _ Hd Hid Hs Hsvc).
  split.
  { handler_unfold. cbn. rewrite Hsvc. eauto. }
  cbn [final panics w trace store].
  rewrite afterEncode_status, afterEncode_content_type.
  repeat split; try done.
  intros sent ->. apply afterEncode_written.
Qed.

(** The two flows look at the body only through the decoder. *)
Lemma handleCreate_ext r r' (s : World St) :
  http.Ctx r = http.Ctx r' ->
  json.DecodeCreate (http.Body r) = json.DecodeCreate (http.Body r') ->
  handleCreate svc encode r s = handleCreate svc encode r' s.
Proof. intros Hc Hd. handler_unfold. by rewrite Hc, Hd. Qed.

Lemma handleUpdate_ext r r' (s : World St) :
  http.Ctx r = http.Ctx r' ->
  json.DecodeUpdate (http.Body r) = json.DecodeUpdate (http.Body r') ->
  handleUpdate svc encode r s = handleUpdate svc encode r' s.
Proof. intros Hc Hd. handler_unfold. by rewrite Hc, Hd. Qed.

Lemma fold_filter {A} (step : A -> string * json.Value -> A)
      (keep : string * json.Value -> bool) :
  (forall acc m, keep m = false -> step acc m = acc) ->
  forall ms acc,
    fold_left step (List.filter keep ms) acc = fold_left step ms acc.
Proof.
  intros Hdrop ms. induction ms as [|m ms IH]; intros acc; [done|].
  cbn. destruct (keep m) eqn:Hk; cbn; [done|].
  by rewrite (Hdrop _ _ Hk).
Qed.

Lemma memberCreate_unused acc m :
  usedByCreate m = false -> json.memberCreate acc m = acc.
Proof.
  destruct m as [k v]. unfold usedByCreate. cbn [fst].
  intros [H1 H2]%orb_false_iff. by apply memberCreate_other.
Qed.

Lemma memberUpdate_unused acc m :
  usedByUpdate m = false -> json.memberUpdate acc m = acc.
Proof.
  destruct m as [k v]. unfold usedByUpdate, usedByCreate. cbn [fst].
  intros [H1 [H2 H3]%orb_false_iff]%orb_false_iff.
  by apply memberUpdate_other.
Qed.

Lemma memberCreate_unused_by_update acc m :
  usedByUpdate m = false -> json.memberCreate acc m = acc.
Proof.
  unfold usedByUpdate. intros [_ H]%orb_false_iff.
  by apply memberCreate_unused.
Qed.

(** X11: members of the body's JSON object whose key selects no field of
    the request shape are ignored: the request is served exactly as the
    request without them.  For POST this includes an id member; members
    that select none of id, subject and description can be dropped for
    every method. *)
Theorem unknown_members_are_ignored
        (r : http.Request) (st : St) (ms : list (string * json.Value)) :
  http.Body r = json.Doc (json.Object ms) ->
  (http.Method r = "POST" ->
   serve r st
   = serve (withBody (json.Doc (json.Object (List.filter usedByCreate ms))) r) st)
  /\
  serve r st
  = serve (withBody (json.Doc (json.Object (List.filter usedByUpdate ms))) r) st.
Proof.
  intros Hb.
  assert (Hc : json.DecodeCreate (http.Body r)
               = json.DecodeCreate
                   (json.Doc (json.Object (List.filter usedByCreate ms)))).
  { rewrite Hb. cbn. by rewrite (fold_filter _ _ memberCreate_unused). }
  assert (Hc' : json.DecodeCreate (http.Body r)
                = json.DecodeCreate
                    (json.Doc (json.Object (List.filter usedByUpdate ms)))).
  { rewrite Hb. cbn.
    by rewrite (fold_filter _ _ memberCreate_unused_by_update). }
  assert (Hu : json.DecodeUpdate (http.Body r)
               = json.DecodeUpdate
                   (json.Doc (json.Object (List.filter usedByUpdate ms)))).
  { rewrite Hb. cbn. by rewrite (fold_filter _ _ memberUpdate_unused). }
  split.
  - intros Hm. rewrite !serve_post by done. by apply handleCreate_ext.
  - unfold serve, handler.serve, ServeHTTP. cbn [withBody http.Method].
    destruct (String.eqb _ http.MethodPost); [by apply handleCreate_ext|].
    destruct (String.eqb _ http.MethodPut); [by apply handleUpdate_ext|].
    done.
Qed.

(** X12: a key that is missing from the body's JSON object is a failure
    of the validation, not of the decoding.  When every member of the
    object fits the field it selects: a POST body without a subject key
    is answered with 400 and the line of the Subject check, a PUT body
    without an id key or without a subject key with 400 and the line of
    the ID-or-Subject check; nothing is logged, the body is closed, the
    service is not invoked. *)
Theorem missing_key_fails_validation
        (r : http.Request) (st : St) (ms : list (string * json.Value)) :
  http.Body r = json.Doc (json.Object ms) ->
  (http.Method r = "POST" ->
   existsb badForCreate ms = false ->
   absent "subject" ms = true ->
   serve r st
   = Done tt {| w := http.Error "Subject is required" 400 http.NewResponseWriter;
                store := st;
                trace := [EvDecode; EvBodyClose] |}) /\
  (http.Method r = "PUT" ->
   existsb badForUpdate ms = false ->
   absent "id" ms = true \/ absent "subject" ms = true ->
   serve r st
   = Done tt {| w := http.Error "Invalid ID or Subject" 400
                       http.NewResponseWriter;
                store := st;
                trace := [EvDecode; EvBodyClose] |}).
Proof.
  intros Hb. split.
  - intros Hm Hok Habs. rewrite (serve_post _ _ _ _ Hm).
    apply DecodeCreate_object_error in Hok.
    destruct (json.DecodeCreate (http.Body r)) as [req e] eqn:Hd.
    rewrite Hb in Hd. rewrite Hd in Hok. cbn in Hok. subst e.
    rewrite <- Hb in Hd.
    apply (handleCreate_no_subject _ _ _ _ _ Hd).
    change (cr_Subject (req, @None error).1 = "").
    rewrite <- Hd, Hb. cbn.
    by rewrite (fold_keeps json.memberCreate (fun a => cr_Subject a.1)
                  "subject" memberCreate_keeps_subject ms _ Habs).
  - intros Hm Hok Habs. rewrite (serve_put _ _ _ _ Hm).
    apply DecodeUpdate_object_error in Hok.
    destruct (json.DecodeUpdate (http.Body r)) as [req e] eqn:Hd.
    rewrite Hb in Hd. rewrite Hd in Hok. cbn in Hok. subst e.
    rewrite <- Hb in Hd.
    apply (handleUpdate_invalid _ _ _ _ _ Hd).
    change (up_ID (req, @None error).1 = 0
            \/ up_Subject (req, @None error).1 = "").
    rewrite <- Hd, Hb. cbn.
    destruct Habs as [Habs|Habs]; [left|right].
    + by rewrite (fold_keeps json.memberUpdate (fun a => up_ID a.1)
                    "id" memberUpdate_keeps_id ms _ Habs).
    + by rewrite (fold_keeps json.memberUpdate (fun a => up_Subject a.1)
                    "subject" memberUpdate_keeps_subject ms _ Habs).
Qed.

(** X13: one member that selects a field and does not fit its type makes
    the whole request invalid JSON: a subject or description that is not
    a string or null (POST and PUT), an id that is not an integer literal
    within int64 or null (PUT).  The answer is 400 with the line
    "Invalid JSON" and one logged line; the body is not closed and the
    service is not invoked, whatever the other members are. *)
Theorem ill_typed_member_is_invalid_json
        (r : http.Request) (st : St) (ms : list (string * json.Value)) :
  http.Body r = json.Doc (json.Object ms) ->
  (http.Method r = "POST" /\ existsb badForCreate ms = true) \/
  (http.Method r = "PUT" /\ existsb badForUpdate ms = true) ->
  let o := serve r st in
  panics o = false /\
  http.status (w (final o)) = 400 /\
  http.written (w (final o)) = "Invalid JSON" +:+ http.LF /\
  length (logs (trace (final o))) = 1%nat /\
  closes (trace (final o)) = 0%nat /\
  calls (trace (final o)) = [] /\
  store (final o) = st.
Proof.
  intros Hb [[Hm Hbad] | [Hm Hbad]] o; subst o.
  - rewrite (serve_post _ _ _ _ Hm).
    destruct (json.DecodeCreate (http.Body r)) as [req [e|]] eqn:Hd.
    + by rewrite (handleCreate_undecodable _ _ _ _ _ _ Hd).
    + assert (H : (json.DecodeCreate (json.Doc (json.Object ms))).2 = None)
        by (by rewrite <- Hb, Hd).
      apply DecodeCreate_object_error in H. congruence.
  - rewrite (serve_put _ _ _ _ Hm).
    destruct (json.DecodeUpdate (http.Body r)) as [req [e|]] eqn:Hd.
    + by rewrite (handleUpdate_undecodable _ _ _ _ _ _ Hd).
    + assert (H : (json.DecodeUpdate (json.Doc (json.Object ms))).2 = None)
        by (by rewrite <- Hb, Hd).
      apply DecodeUpdate_object_error in H. congruence.
Qed.

End Coverage.

(** *** Requests that do not reach the service *)

Section Rejected.
Context {St St' : Type}
        (svc : TODOService St) (encode : Encoded -> EncodeResult)
        (svc' : TODOService St') (encode' : Encoded -> EncodeResult).

(** X14: a request that is answered without a call to the service is
    answered in the same way by a handler over any other service, store
    and encoder: same status, headers and body, same log lines, and
    again no call.  What such a response says depends on the request
    alone. *)
Theorem rejection_depends_on_request_alone
        (r : http.Request) (st : St) (st' : St') :
  calls (trace (final (handler.serve svc encode r st))) = [] ->
  w (final (handler.serve svc' encode' r st'))
  = w (final (handler.serve svc encode r st)) /\
  trace (final (handler.serve svc' encode' r st'))
  = trace (final (handler.serve svc encode r st)) /\
  panics (handler.serve svc' encode' r st') = false /\
  store (final (handler.serve svc' encode' r st')) = st'.
Proof.
  serve_paths svc encode r st; cbn [final trace]; intros Hcalls;
    try discriminate Hcalls.
  - rewrite (serve_post svc' encode' r st' Hm).
    by rewrite (handleCreate_undecodable svc' encode' r st' _ _ Hd).
  - rewrite (serve_post svc' encode' r st' Hm).
    by rewrite (handleCreate_no_subject svc' encode' r st' _ Hd Hs).
  - rewrite (serve_put svc' encode' r st' Hm).
    by rewrite (handleUpdate_undecodable svc' encode' r st' _ _ Hd).
  - rewrite (serve_put svc' encode' r st' Hm).
    by rewrite (handleUpdate_invalid svc' encode' r st' _ Hd (or_introl Hid)).
  - rewrite (serve_put svc' encode' r st' Hm).
    by rewrite (handleUpdate_invalid svc' encode' r st' _ Hd (or_intror Hs)).
  - by rewrite (serve_other svc' encode' r st' Hpost Hput).
Qed.

End Rejected.

(** *** Instances of the conditional statements above *)

Lemma body_closed_iff_decoded_witness :
  let r := post (obj [("subject", Str "Buy milk")]) in
  List.last (trace (final (serve (service nilnil) encodeOK r 0%nat))) EvDecode
  = EvBodyClose.
Proof.
  cbv zeta.
  apply (proj1 (proj2 (body_closed_iff_decoded (service nilnil) encodeOK
                         (post (obj [("subject", Str "Buy milk")])) 0%nat))).
  reflexivity.
Defined.

Lemma status_and_content_type_witness :
  let o := serve (service missing) encodeOK
                 (put (obj [("id", Number (IntLit 999)); ("subject", Str "x")]))
                 0%nat in
  http.sentHeader (w (final o)) !! "Content-Type"
  = Some ["text/plain; charset=utf-8"] /\
  http.sentHeader (w (final o)) !! "X-Content-Type-Options" = Some ["nosniff"].
Proof.
  cbv zeta.
  pose proof (status_and_content_type (service missing) encodeOK
                (put (obj [("id", Number (IntLit 999)); ("subject", Str "x")]))
                0%nat) as H.
  cbv zeta in H.
  change (panics _) with false in H.
  cbv iota in H.
  apply (proj1 (proj2 (proj2 (proj2 H)))).
  discriminate.
Defined.

Lemma error_body_is_a_fixed_line_witness :
  In (http.written
        (w (final (serve (service failing) encodeOK
                         (post (obj [("subject", Str "x")])) 0%nat))))
     errorLines.
Proof.
  apply error_body_is_a_fixed_line; [reflexivity | discriminate].
Defined.

Lemma log_lines_witness :
  let o := serve (service failing) encodeOK
                 (post (obj [("subject", Str "x")])) 0%nat in
  http.status (w (final o)) = 500 /\
  (logs (trace (final o)) <> [] <->
   decodable (post (obj [("subject", Str "x")])) = false).
Proof.
  cbv zeta. split; [reflexivity|].
  apply (proj1 (proj2 (log_lines (service failing) encodeOK
                         (post (obj [("subject", Str "x")])) 0%nat))).
  reflexivity.
Defined.

Lemma update_success_wraps_service_todo_witness :
  let r := put (obj [("id", Number (IntLit 1)); ("subject", Str "Buy milk")]) in
  let o := serve (service ok) encodeOK r 0%nat in
  let res := {| up_TODO := milk |} in
  (exists s, Update (service ok) (http.Ctx r)
                    (Some {| up_ID := 1; up_Subject := "Buy milk";
                             up_Description := "" |})
                    (fresh 0%nat)
             = Done (Some res, None) s) /\
  panics o = false /\
  http.status (w (final o)) = 200 /\
  http.sentHeader (w (final o)) !! "Content-Type" = Some ["application/json"] /\
  logs (trace (final o)) = [] /\
  encoded (trace (final o)) = [EncUpdate (Some res)] /\
  store (final o) = 1%nat /\
  (forall sent, encodeOK (EncUpdate (Some res)) = Writes sent None ->
                http.written (w (final o)) = sent).
Proof.
  cbv zeta.
  refine (update_success_wraps_service_todo (service ok) encodeOK
            (put (obj [("id", Number (IntLit 1)); ("subject", Str "Buy milk")]))
            0%nat 1%nat
            {| up_ID := 1; up_Subject := "Buy milk"; up_Description := "" |}
            milk _ _ _ _ _);
    [reflexivity | reflexivity | discriminate | discriminate | reflexivity].
Defined.

Lemma unknown_members_are_ignored_witness :
  let ms := [("subject", Str "x"); ("priority", Number (IntLit 3));
             ("id", Str "not a number")] in
  serve (service ok) encodeOK (post (obj ms)) 0%nat
  = serve (service ok) encodeOK (post (obj [("subject", Str "x")])) 0%nat /\
  serve (service ok) encodeOK (put (obj ms)) 0%nat
  = serve (service ok) encodeOK
          (put (obj [("subject", Str "x"); ("id", Str "not a number")])) 0%nat.
Proof.
  cbv zeta. split.
  - refine (proj1 (unknown_members_are_ignored (service ok) encodeOK
                     (post (obj [("subject", Str "x");
                                 ("priority", Number (IntLit 3));
                                 ("id", Str "not a number")]))
                     0%nat _ eq_refl) _).
    reflexivity.
  - exact (proj2 (unknown_members_are_ignored (service ok) encodeOK
                    (put (obj [("subject", Str "x");
                               ("priority", Number (IntLit 3));
                               ("id", Str "not a number")]))
                    0%nat _ eq_refl)).
Defined.

Lemma missing_key_fails_validation_witness :
  (let o := serve (service ok) encodeOK
                  (post (obj [("description", Str "no subject here")])) 0%nat in
   http.status (w (final o)) = 400 /\
   http.written (w (final o)) = "Subject is required" +:+ http.LF /\
   logs (trace (final o)) = []) /\
  (let o := serve (service ok) encodeOK
                  (put (obj [("subject", Str "x")])) 0%nat in
   http.status (w (final o)) = 400 /\
   http.written (w (final o)) = "Invalid ID or Subject" +:+ http.LF /\
   logs (trace (final o)) = []).
Proof.
  cbv zeta. split.
  - rewrite (proj1 (missing_key_fails_validation (service ok) encodeOK
                      (post (obj [("description", Str "no subject here")]))
                      0%nat _ eq_refl) eq_refl eq_refl eq_refl).
    repeat split.
  - rewrite (proj2 (missing_key_fails_validation (service ok) encodeOK
                      (put (obj [("subject", Str "x")]))
                      0%nat _ eq_refl) eq_refl eq_refl (or_introl eq_refl)).
    repeat split.
Defined.

Lemma ill_typed_member_is_invalid_json_witness :
  let o := serve (service ok) encodeOK
                 (put (obj [("id", Number (IntLit 9223372036854775808));
                            ("subject", Str "x")])) 0%nat in
  panics o = false /\
  http.status (w (final o)) = 400 /\
  http.written (w (final o)) = "Invalid JSON" +:+ http.LF /\
  length (logs (trace (final o))) = 1%nat /\
  closes (trace (final o)) = 0%nat /\
  calls (trace (final o)) = [] /\
  store (final o) = 0%nat.
Proof.
  cbv zeta.
  refine (ill_typed_member_is_invalid_json (service ok) encodeOK
            (put (obj [("id", Number (IntLit 9223372036854775808));
                       ("subject", Str "x")])) 0%nat _ eq_refl _).
  right. split; reflexivity.
Defined.

Lemma rejection_depends_on_request_alone_witness :
  let r := put (obj [("id", Number (IntLit 0)); ("subject", Str "x")]) in
  w (final (serve (service failing) encodeFails r 5%nat))
  = w (final (serve (service ok) encodeOK r 0%nat)) /\
  trace (final (serve (service failing) encodeFails r 5%nat))
  = trace (final (serve (service ok) encodeOK r 0%nat)) /\
  panics (serve (service failing) encodeFails r 5%nat) = false /\
  store (final (serve (service failing) encodeFails r 5%nat)) = 5%nat.
Proof.
  cbv zeta.
  apply (rejection_depends_on_request_alone (service ok) encodeOK
           (service failing) encodeFails).
  reflexivity.
Defined.
